(** * Evaluation pipeline of Complete_Project.py

    A shallow embedding of the evaluation pipeline of the textbook quality
    assessment application: [extract_text_from_file_bytes],
    [evaluate_textbook_gemini], the [/analyze] route and the [/user_history]
    route, together with the properties of the pipeline that its
    specification states.

    Python values are modelled as follows.
    - [str] is [string]; a character is read as the code point of the same
      number (0..255), so [lower] and [strip] below are the restrictions of
      Python's [str.lower] and [str.strip] to that range.
    - [bytes] is [list byte].
    - A raised exception is a value of [py_exception]; a computation that
      may raise returns [result].
    - The libraries the program calls (PyPDF2, python-docx, json, bson, the
      Gemini client, GridFS and the MongoDB collection) are not part of the
      program: what they return is a field of [Libs] or of [World]. *)

From Stdlib Require Import String Ascii List ZArith NArith Lia Bool.
From Stdlib.Strings Require Import Byte.
From Stdlib Require Import DecimalString Sorted Permutation.
Import ListNotations.

Local Open Scope string_scope.
Local Open Scope list_scope.

Set Warnings "-register-all".

(* ================================================================= *)
(** ** Python built-ins used by the program *)

Module Py.

(** Outcome of a call that may raise. *)
Inductive py_exception : Type :=
| ValueError (msg : string)
| OtherException (msg : string).

(** [str(e)] *)
Definition exn_str (e : py_exception) : string :=
  match e with
  | ValueError m => m
  | OtherException m => m
  end.

Inductive result (A : Type) : Type :=
| Ok (a : A)
| Raise (e : py_exception).

Arguments Ok {A} a.
Arguments Raise {A} e.

Definition bind {A B : Type} (m : result A) (k : A -> result B) : result B :=
  match m with
  | Ok a => k a
  | Raise e => Raise e
  end.

Definition bytes : Type := list byte.

(** [len(s)] *)
Definition len (s : string) : nat := String.length s.

(** [c.lower()] for a code point below 256: the ASCII capitals and the
    Latin-1 capitals (all of 192..222 but the multiplication sign 215)
    move up by 32. *)
Definition lower_char (c : ascii) : ascii :=
  let n := N_of_ascii c in
  if ((65 <=? n) && (n <=? 90)
      || (192 <=? n) && (n <=? 214)
      || (216 <=? n) && (n <=? 222))%N
  then ascii_of_N (n + 32)
  else c.

(** [s.lower()] *)
Fixpoint lower (s : string) : string :=
  match s with
  | EmptyString => EmptyString
  | String c s' => String (lower_char c) (lower s')
  end.

(** [c.isspace()] for a code point below 256. *)
Definition isspace (c : ascii) : bool :=
  let n := N_of_ascii c in
  ((9 <=? n) && (n <=? 13)
   || (28 <=? n) && (n <=? 32)
   || (n =? 133) || (n =? 160))%N.

Fixpoint lstrip (s : string) : string :=
  match s with
  | EmptyString => EmptyString
  | String c s' => if isspace c then lstrip s' else s
  end.

Fixpoint rstrip (s : string) : string :=
  match s with
  | EmptyString => EmptyString
  | String c s' =>
      match rstrip s' with
      | EmptyString => if isspace c then EmptyString else String c EmptyString
      | r => String c r
      end
  end.

(** [s.strip()] *)
Definition strip (s : string) : string := rstrip (lstrip s).

(** Truth value of a string: [bool(s)]. *)
Definition truthy (s : string) : bool :=
  match s with
  | EmptyString => false
  | String _ _ => true
  end.

(** [s.startswith(p)] *)
Definition startswith (s p : string) : bool := String.prefix p s.

(** [s.endswith(suffix)] *)
Definition endswith (s suffix : string) : bool :=
  (String.length suffix <=? String.length s)%nat
  && String.eqb
       (String.substring (String.length s - String.length suffix)
                         (String.length suffix) s)
       suffix.

(** [s.endswith((suffix1, suffix2, ...))] *)
Definition endswith_any (s : string) (suffixes : list string) : bool :=
  existsb (endswith s) suffixes.

(** [s[:n]] *)
Fixpoint slice_to (n : nat) (s : string) : string :=
  match n, s with
  | O, _ => EmptyString
  | S _, EmptyString => EmptyString
  | S n', String c s' => String c (slice_to n' s')
  end.

(** [sep.join(parts)] *)
Definition join (sep : string) (parts : list string) : string :=
  String.concat sep parts.

(** [needle in s] for two strings. *)
Fixpoint contains (s needle : string) : bool :=
  String.prefix needle s
  || match s with
     | EmptyString => false
     | String _ s' => contains s' needle
     end.

(** [str(n)] for an [int]. *)
Definition str_of_int (z : Z) : string :=
  NilZero.string_of_int (Z.to_int z).

(** The newline character. *)
Definition nl : string := String (ascii_of_nat 10) EmptyString.

End Py.

Export Py.

Declare Scope py_scope.
Notation "x <- m ;; k" := (bind m (fun x => k))
  (at level 61, m at next level, right associativity) : py_scope.
Local Open Scope py_scope.

(* ================================================================= *)
(** ** JSON values and dictionaries *)

(** A Python [float] is identified by the string [repr] gives for it (the
    shortest decimal that reads back as the same float): the float 4.2 is
    [Float "4.2"].  The program only stores and prints floats. *)
Record pyfloat : Type := Float { float_repr : string }.

(** What [json.loads] returns: [None], [bool], [int], [float], [str],
    [list], or a [dict] with string keys (in insertion order). *)
Inductive json : Type :=
| JNull
| JBool (b : bool)
| JInt (z : Z)
| JFloat (f : pyfloat)
| JStr (s : string)
| JArr (elements : list json)
| JObj (items : list (string * json)).

Definition dict : Type := list (string * json).

(** [d.get(key)] as an option: the value of the first item with that key. *)
Fixpoint dict_get (d : dict) (key : string) : option json :=
  match d with
  | [] => None
  | (k, v) :: d' => if String.eqb k key then Some v else dict_get d' key
  end.

(** [d.get(key, default)] *)
Definition get (d : dict) (key : string) (default : json) : json :=
  match dict_get d key with
  | Some v => v
  | None => default
  end.

(** [key in d] *)
Definition has_key (d : dict) (key : string) : bool :=
  match dict_get d key with
  | Some _ => true
  | None => false
  end.

(** [s or default] for two strings. *)
Definition or_else (s default : string) : string :=
  if truthy s then s else default.

(* ================================================================= *)
(** ** The libraries the program calls *)

Definition oid : Type := string.
Definition datetime : Type := Z.
Definition file_id : Type := Z.

(** One page of a PDF: what [page.extract_text()] does, which is to raise
    or to return a string or [None]. *)
Definition pdf_page : Type := result (option string).

Record Libs : Type := {
  (** [PdfReader(io.BytesIO(raw_bytes)).pages] *)
  PdfReader : bytes -> result (list pdf_page);
  (** [[p.text for p in docx.Document(io.BytesIO(raw_bytes)).paragraphs]] *)
  docx_Document : bytes -> result (list string);
  (** [raw_bytes.decode("utf-8", errors="ignore")] *)
  decode_utf8_ignore : bytes -> string;
  (** [json.loads(text)] *)
  json_loads : string -> result json;
  (** [ObjectId(s)] *)
  ObjectId : string -> result oid;
  (** [ts.strftime("%Y-%m-%d %H:%M:%S")] *)
  strftime : datetime -> string;
  (** [str(v)] for a list or a dict *)
  str_of_container : json -> string
}.

(** [str(v)], which is also how an f-string prints [v]. *)
Definition py_str (libs : Libs) (v : json) : string :=
  match v with
  | JNull => "None"
  | JBool true => "True"
  | JBool false => "False"
  | JInt z => str_of_int z
  | JFloat f => float_repr f
  | JStr s => s
  | JArr _ | JObj _ => str_of_container libs v
  end.

(** [isinstance(v, (int, float))]; a Python [bool] is an [int]. *)
Definition isinstance_int_float (v : json) : bool :=
  match v with
  | JInt _ | JFloat _ | JBool _ => true
  | _ => false
  end.

(* ================================================================= *)
(** ** The evaluation schema (EVALUATION_SCHEMA) *)

Inductive schema_type : Type := NUMBER | STRING.

Record Schema : Type := {
  properties : list (string * schema_type);
  required : list string
}.

Definition EVALUATION_SCHEMA : Schema := {|
  properties :=
    [ ("accuracy_score", NUMBER); ("accuracy", STRING);
      ("readability_score", NUMBER); ("readability", STRING);
      ("consistency_score", NUMBER); ("consistency", STRING);
      ("overall_rating", NUMBER); ("summary", STRING) ];
  required :=
    [ "accuracy_score"; "accuracy"; "readability_score"; "readability";
      "consistency_score"; "consistency"; "overall_rating"; "summary" ]
|}.

(* ================================================================= *)
(** ** extract_text_from_file_bytes *)

Definition MAX_CHARS : nat := N.to_nat 20000.

(** The two [ValueError]s the extractor raises itself. *)
Definition UnsupportedFormat : py_exception :=
  ValueError "Unsupported document type. Please upload PDF, DOCX, or TXT.".

Definition EmptyContent : py_exception :=
  ValueError "No readable text found in the uploaded file.".

(** [text or ""] for what [page.extract_text()] returned. *)
Definition text_or_empty (t : option string) : string :=
  match t with
  | Some s => s
  | None => ""
  end.

(** The loop over [reader.pages]: the text of a page is appended to
    [pages_text]; when [extract_text] raises, the loop goes on to the next
    page ([continue]) and nothing is appended. *)
Fixpoint collect_pages (pages : list pdf_page) (pages_text : list string)
  : list string :=
  match pages with
  | [] => pages_text
  | page :: rest =>
      match page with
      | Ok t => collect_pages rest (pages_text ++ [text_or_empty t])
      | Raise _ => collect_pages rest pages_text
      end
  end.

(** The [if]/[elif] chain on the lowercased file name: the text of the
    document before it is trimmed to [MAX_CHARS]. *)
Definition read_text (libs : Libs) (filename : string) (raw_bytes : bytes)
  : result string :=
  let filename_lower := lower (or_else filename "") in
  if endswith filename_lower ".pdf" then
    pages <- PdfReader libs raw_bytes ;;
    Ok (join nl (collect_pages pages []))
  else if endswith filename_lower ".docx" then
    paragraphs <- docx_Document libs raw_bytes ;;
    Ok (join nl paragraphs)
  else if endswith filename_lower ".txt" then
    Ok (decode_utf8_ignore libs raw_bytes)
  else
    Raise UnsupportedFormat.

(** The trimming and the blank test that follow the chain. *)
Definition limit_text (text : string) : result string :=
  let text := if (MAX_CHARS <? len text)%nat then slice_to MAX_CHARS text
              else text in
  if negb (truthy (strip text)) then Raise EmptyContent else Ok text.

Definition extract_text_from_file_bytes
  (libs : Libs) (filename : string) (raw_bytes : bytes) : result string :=
  text <- read_text libs filename raw_bytes ;;
  limit_text text.

(** The text the specification describes for a PDF, to compare with
    [collect_pages]: every page contributes one string, the empty string
    when its extraction raises. *)
Definition spec_pdf_page_text (page : pdf_page) : string :=
  match page with
  | Ok t => text_or_empty t
  | Raise _ => ""
  end.

Definition spec_pdf_text (pages : list pdf_page) : string :=
  join nl (map spec_pdf_page_text pages).

(* ================================================================= *)
(** ** evaluate_textbook_gemini *)

(** One element of [contents]: a string, or [types.Part.from_bytes]. *)
Inductive part : Type :=
| Text (s : string)
| ImagePart (data : bytes) (mime_type : string).

Record GenerateContentConfig : Type := {
  response_mime_type : string;
  response_schema : Schema;
  temperature : pyfloat
}.

(** The Gemini client: [client.models.generate_content(...)] raises or
    returns a response, of which the program reads [response.text]. *)
Record GeminiClient : Type := {
  generate_content :
    string -> list part -> GenerateContentConfig -> result string
}.

(** The instruction text.  The source writes the ranges and the items with
    en dashes; they are ASCII hyphens here. *)
Definition prompt : string :=
  "You are an educational content quality reviewer. "
  ++ "You will be given either textual content or an image of textbook/reference book pages. "
  ++ "If an image is provided, read the text from the image first, then evaluate it." ++ nl ++ nl
  ++ "Based only on the provided material (it may be partial), evaluate the content on:" ++ nl ++ nl
  ++ "1. Accuracy - Give a numerical score from 0 to 100 for factual correctness and "
  ++ "   alignment with standard knowledge in the field, and a short explanation." ++ nl
  ++ "2. Readability - Give a numerical score from 0 to 100 for clarity, structure, "
  ++ "   and ease of understanding, and a short explanation." ++ nl
  ++ "3. Consistency - Give a numerical score from 0 to 100 for internal consistency "
  ++ "   (terminology, notation, tone, logical flow), and a short explanation." ++ nl
  ++ "4. Overall Rating - Give one overall quality rating on a 0 to 5 scale "
  ++ "   (you may use one decimal place, e.g., 4.2)." ++ nl ++ nl
  ++ "Return your answer strictly using the provided JSON schema, filling:" ++ nl
  ++ "- accuracy_score (0-100), accuracy (text explanation)" ++ nl
  ++ "- readability_score (0-100), readability (text explanation)" ++ nl
  ++ "- consistency_score (0-100), consistency (text explanation)" ++ nl
  ++ "- overall_rating (0-5, number)" ++ nl
  ++ "- summary (2-4 sentences summary)." ++ nl.

(** A dictionary with the single key ["error"]. *)
Definition error_dict (msg : string) : json := JObj [("error", JStr msg)].

Definition ClientUnavailable_message : string :=
  "Analysis Error: Gemini Client not initialized. Set GEMINI_API_KEY correctly.".

Definition NoContent_message : string := "No content to analyze.".

(** The error of the [except] clause around the call, for [str(e) = details]. *)
Definition InvocationFailed_message (details : string) : string :=
  "Analysis Error: API call failed or returned invalid data. Details: "
  ++ details.

(** [not text_content or not text_content.strip()] *)
Definition blank (text_content : option string) : bool :=
  match text_content with
  | None => true
  | Some t => negb (truthy t) || negb (truthy (strip t))
  end.

(** The guard of the "No content" return:
    [(not text_content or not text_content.strip()) and image_bytes is None]. *)
Definition no_content (text_content : option string)
  (image_bytes : option bytes) : bool :=
  blank text_content
  && match image_bytes with
     | None => true
     | Some _ => false
     end.

(** The list [contents]: the prompt, then the text when it is not blank,
    then the image when there is one. *)
Definition build_contents (text_content : option string)
  (image_bytes : option bytes) (image_mime : option string) : list part :=
  [Text prompt]
  ++ (match text_content with
      | Some t => if truthy t && truthy (strip t) then [Text t] else []
      | None => []
      end)
  ++ (match image_bytes with
      | Some data =>
          let mime := match image_mime with
                      | Some m => or_else m "image/jpeg"
                      | None => "image/jpeg"
                      end in
          [ImagePart data mime]
      | None => []
      end).

Definition evaluation_config : GenerateContentConfig := {|
  response_mime_type := "application/json";
  response_schema := EVALUATION_SCHEMA;
  temperature := Float "0.0"
|}.

(** The [try] block: one call of the model, then [json.loads]. *)
Definition invoke (libs : Libs) (c : GeminiClient) (contents : list part)
  : result json :=
  text <- generate_content c "gemini-2.5-flash" contents evaluation_config ;;
  json_loads libs text.

Definition evaluate_textbook_gemini (libs : Libs) (client : option GeminiClient)
  (text_content : option string) (image_bytes : option bytes)
  (image_mime : option string) : json :=
  match client with
  | None => error_dict ClientUnavailable_message
  | Some c =>
      if no_content text_content image_bytes then error_dict NoContent_message
      else
        match invoke libs c (build_contents text_content image_bytes image_mime) with
        | Ok data => data
        | Raise e => error_dict (InvocationFailed_message (exn_str e))
        end
  end.

(* ================================================================= *)
(** ** The stores, the session and the request *)

(** A file kept by GridFS ([files_fs.put]). *)
Record gridfs_file : Type := {
  gf_id : file_id;
  gf_data : bytes;
  gf_filename : string;
  gf_content_type : string;
  gf_uploaded_at : datetime;
  gf_user_id : string
}.

(** A document of [evaluations_collection].  The only writer of the
    collection is [analyze], which inserts a dictionary with exactly these
    keys, so a stored document is a record of them. *)
Record eval_doc : Type := {
  d_user_id : oid;
  d_username : option string;
  d_timestamp : datetime;
  d_input_type : string;
  d_file_id : file_id;
  d_original_filename : string;
  d_content_type : string;
  d_accuracy_score : json;
  d_readability_score : json;
  d_consistency_score : json;
  d_accuracy_text : json;
  d_readability_text : json;
  d_consistency_text : json;
  d_overall_rating_value : json;
  d_overall_rating : string;
  d_summary : json;
  d_full_extracted_text : option string;
  d_raw_evaluation : json
}.

Record Store : Type := {
  files_fs : list gridfs_file;
  evaluations_collection : list eval_doc
}.

(** The Flask session: whether the key ["logged_in"] is there, and the
    values of ["user_id"] and ["username"] when they are. *)
Record Session : Type := {
  logged_in : bool;
  user_id : option string;
  username : option string
}.

(** [request.files["file"]] *)
Record FileStorage : Type := {
  file_filename : option string;
  file_content_type : option string;
  file_read : bytes
}.

(** What is outside the program during one request: the global [client],
    the two readings of the clock, and whether the two writes raise. *)
Record World : Type := {
  client : option GeminiClient;
  utcnow_upload : datetime;
  utcnow_save : datetime;
  (** [files_fs.put(...)]: the new file's id, or an exception *)
  put_outcome : result file_id;
  (** [evaluations_collection.insert_one(eval_doc)]: [Some e] when it raises *)
  insert_outcome : option py_exception
}.

(** What a route returns: [jsonify(body), status], or an exception that no
    handler of the route catches. *)
Inductive http_response : Type :=
| Response (status : Z) (body : json)
| Unhandled (e : py_exception).

(* ================================================================= *)
(** ** The /analyze route *)

Definition image_suffixes : list string :=
  [".png"; ".jpg"; ".jpeg"; ".webp"; ".bmp"; ".gif"].

(** [is_image], from the declared content type and the lowercased name. *)
Definition is_image (filename content_type : string) : bool :=
  let lower_name := lower filename in
  startswith content_type "image/" || endswith_any lower_name image_suffixes.

(** What the first [try] block leaves in its three variables. *)
Record Payload : Type := {
  text_content : option string;
  image_bytes : option bytes;
  image_mime : option string
}.

(** The branch on [is_image]. *)
Definition classify (libs : Libs) (filename content_type : string)
  (file_bytes : bytes) : result Payload :=
  if is_image filename content_type then
    Ok {| text_content := None;
          image_bytes := Some file_bytes;
          image_mime := Some (if startswith content_type "image/"
                              then content_type else "image/jpeg") |}
  else
    text <- extract_text_from_file_bytes libs filename file_bytes ;;
    Ok {| text_content := Some text;
          image_bytes := None;
          image_mime := None |}.

(** The first [try] block: the upload goes to GridFS, then it is
    classified.  The store keeps the file also when the classification
    raises afterwards. *)
Definition receive (libs : Libs) (w : World) (st : Store) (uid : string)
  (filename content_type : string) (file_bytes : bytes)
  : result (file_id * Payload) * Store :=
  match put_outcome w with
  | Raise e => (Raise e, st)
  | Ok fid =>
      let st' := {| files_fs :=
                      files_fs st ++
                      [{| gf_id := fid;
                          gf_data := file_bytes;
                          gf_filename := filename;
                          gf_content_type := content_type;
                          gf_uploaded_at := utcnow_upload w;
                          gf_user_id := uid |}];
                    evaluations_collection := evaluations_collection st |} in
      (p <- classify libs filename content_type file_bytes ;; Ok (fid, p), st')
  end.

(** The two [except] clauses of the first [try] block. *)
Definition rejection (e : py_exception) : http_response :=
  match e with
  | ValueError _ => Response 400 (error_dict (exn_str e))
  | OtherException _ =>
      Response 400 (error_dict ("Failed to process file: " ++ exn_str e))
  end.

(** [x == "error"] for an element of a list. *)
Definition is_error_string (v : json) : bool :=
  match v with
  | JStr s => String.eqb s "error"
  | _ => false
  end.

(** ["error" in evaluation_data].  [json.loads] may return something else
    than a dictionary: the test is then membership in a list, a substring
    test in a string, and a [TypeError] for the other values. *)
Definition contains_error (evaluation_data : json) : result bool :=
  match evaluation_data with
  | JObj d => Ok (has_key d "error")
  | JArr l => Ok (existsb is_error_string l)
  | JStr s => Ok (contains s "error")
  | _ => Raise (OtherException "TypeError: argument is not iterable")
  end.

(** The display string of the overall rating. *)
Definition overall_str (libs : Libs) (d : dict) : string :=
  let overall_num := get d "overall_rating" JNull in
  if isinstance_int_float overall_num then
    py_str libs overall_num ++ "/5"
  else
    match overall_num with
    | JNull => "No rating"
    | _ => py_str libs overall_num
    end.

(** The dictionary [eval_doc] of the second [try] block. *)
Definition make_eval_doc (libs : Libs) (w : World) (s : Session) (uid : oid)
  (fid : file_id) (filename content_type : string) (p : Payload) (d : dict)
  : eval_doc := {|
  d_user_id := uid;
  d_username := username s;
  d_timestamp := utcnow_save w;
  d_input_type := match image_bytes p with
                  | Some _ => "image"
                  | None => "document"
                  end;
  d_file_id := fid;
  d_original_filename := filename;
  d_content_type := content_type;
  d_accuracy_score := get d "accuracy_score" JNull;
  d_readability_score := get d "readability_score" JNull;
  d_consistency_score := get d "consistency_score" JNull;
  d_accuracy_text := get d "accuracy" (JStr "");
  d_readability_text := get d "readability" (JStr "");
  d_consistency_text := get d "consistency" (JStr "");
  d_overall_rating_value := get d "overall_rating" JNull;
  d_overall_rating := overall_str libs d;
  d_summary := get d "summary" (JStr "");
  d_full_extracted_text := match text_content p with
                           | Some t => if truthy t then Some t else None
                           | None => None
                           end;
  d_raw_evaluation := JObj d
|}.

(** The second [try] block: building the document can raise in
    [ObjectId(...)], the insertion can raise in the store; either way the
    exception is printed and the store is left as it was. *)
Definition save (libs : Libs) (w : World) (st : Store) (s : Session)
  (uid : string) (fid : file_id) (filename content_type : string)
  (p : Payload) (d : dict) : Store :=
  match ObjectId libs uid with
  | Raise _ => st
  | Ok o =>
      match insert_outcome w with
      | Some _ => st
      | None =>
          {| files_fs := files_fs st;
             evaluations_collection :=
               evaluations_collection st ++
               [make_eval_doc libs w s o fid filename content_type p d] |}
      end
  end.

Definition unavailable : json := JStr "AI analysis unavailable.".

(** The body of the success response. *)
Definition success_body (d : dict) : json :=
  JObj [ ("accuracy_score", get d "accuracy_score" JNull);
         ("accuracy", get d "accuracy" unavailable);
         ("readability_score", get d "readability_score" JNull);
         ("readability", get d "readability" unavailable);
         ("consistency_score", get d "consistency_score" JNull);
         ("consistency", get d "consistency" unavailable);
         ("overall_rating", get d "overall_rating" unavailable);
         ("summary", get d "summary" unavailable) ].

(** The file name the route works with: the uploaded one, or
    ["camera_capture.jpg"] when there is none. *)
Definition upload_filename (file : FileStorage) : string :=
  match file_filename file with
  | Some f => if truthy f then f else "camera_capture.jpg"
  | None => "camera_capture.jpg"
  end.

(** [file.content_type or ""] *)
Definition upload_content_type (file : FileStorage) : string :=
  match file_content_type file with
  | Some c => or_else c ""
  | None => ""
  end.

(** [text_content or ""], the text argument of the evaluator call. *)
Definition text_or_blank (p : Payload) : string :=
  match text_content p with
  | Some t => or_else t ""
  | None => ""
  end.

(** The call [evaluate_textbook_gemini(text_content=text_content or "",
    image_bytes=image_bytes, image_mime=image_mime)]. *)
Definition evaluate_payload (libs : Libs) (w : World) (p : Payload) : json :=
  evaluate_textbook_gemini libs (client w)
    (Some (text_or_blank p)) (image_bytes p) (image_mime p).

(** The part of the route after the first [try] block. *)
Definition evaluate_and_save (libs : Libs) (w : World) (st : Store)
  (s : Session) (uid : string) (fid : file_id)
  (filename content_type : string) (p : Payload) : http_response * Store :=
  let evaluation_data := evaluate_payload libs w p in
  match contains_error evaluation_data with
  | Raise e => (Unhandled e, st)
  | Ok true => (Response 500 evaluation_data, st)
  | Ok false =>
      match evaluation_data with
      | JObj d =>
          (Response 200 (success_body d),
           save libs w st s uid fid filename content_type p d)
      | _ =>
          (Unhandled (OtherException "AttributeError: no attribute 'get'"), st)
      end
  end.

Definition analyze (libs : Libs) (w : World) (st : Store) (s : Session)
  (files_file : option FileStorage) : http_response * Store :=
  match logged_in s, user_id s with
  | true, Some uid =>
      match files_file with
      | None => (Response 400 (error_dict "No file found in request"), st)
      | Some file =>
          let filename := upload_filename file in
          let content_type := upload_content_type file in
          match receive libs w st uid filename content_type (file_read file) with
          | (Raise e, st') => (rejection e, st')
          | (Ok (fid, p), st') =>
              evaluate_and_save libs w st' s uid fid filename content_type p
          end
      end
  | _, _ => (Response 401 (error_dict "Unauthorized"), st)
  end.

(* ================================================================= *)
(** ** The /user_history route *)

(** [find({"user_id": user_id})] *)
Definition find_by_user (uid : oid) (docs : list eval_doc) : list eval_doc :=
  filter (fun d => String.eqb (d_user_id d) uid) docs.

(** [sort("timestamp", -1)]: the documents by descending time stamp. *)
Fixpoint insert_desc (d : eval_doc) (sorted : list eval_doc) : list eval_doc :=
  match sorted with
  | [] => [d]
  | x :: rest =>
      if (d_timestamp x <=? d_timestamp d)%Z then d :: sorted
      else x :: insert_desc d rest
  end.

Definition sort_desc (docs : list eval_doc) : list eval_doc :=
  fold_right insert_desc [] docs.

(** [limit(50)] *)
Definition limit (n : nat) (docs : list eval_doc) : list eval_doc :=
  firstn n docs.

Definition cursor (uid : oid) (st : Store) : list eval_doc :=
  limit 50 (sort_desc (find_by_user uid (evaluations_collection st))).

(** One entry of the history.  The time stamp of a stored document is a
    [datetime], so it is printed with [strftime]; the keys read with a
    default are all present in a stored document. *)
Definition history_entry (libs : Libs) (doc : eval_doc) : json :=
  JObj [ ("timestamp", JStr (strftime libs (d_timestamp doc)));
         ("overall_rating", JStr (d_overall_rating doc));
         ("summary", d_summary doc);
         ("original_filename", JStr (d_original_filename doc)) ].

Definition user_history (libs : Libs) (st : Store) (s : Session)
  : http_response :=
  match logged_in s, user_id s with
  | true, Some uid =>
      match ObjectId libs uid with
      | Raise _ => Response 200 (JObj [("history", JArr [])])
      | Ok o =>
          Response 200
            (JObj [("history", JArr (map (history_entry libs) (cursor o st)))])
      end
  | _, _ => Response 401 (error_dict "Unauthorized")
  end.

(* ================================================================= *)
(** ** Definitions used to state the properties *)

(** The texts of the pages whose extraction does not raise, in order. *)
Definition extracted_texts (pages : list pdf_page) : list string :=
  flat_map (fun page => match page with
                        | Ok t => [text_or_empty t]
                        | Raise _ => []
                        end) pages.

(** The pages whose extraction does not raise. *)
Definition readable (page : pdf_page) : bool :=
  match page with
  | Ok _ => true
  | Raise _ => false
  end.

(** A dictionary lacks one of the required fields of the schema. *)
Definition missing_required (d : dict) : Prop :=
  exists key, In key (required EVALUATION_SCHEMA) /\ dict_get d key = None.

(** The evaluator client reports the error of its [except] clause. *)
Definition InvocationFailed (v : json) : Prop :=
  exists details, v = error_dict (InvocationFailed_message details).

(** The display string as the specification words it: the value followed
    by ["/5"] for a number, the string form of any other value that is
    present, and ["No rating"] otherwise. *)
Definition spec_rating_display (libs : Libs) (v : option json) : string :=
  match v with
  | Some (JInt z) => str_of_int z ++ "/5"
  | Some (JFloat f) => float_repr f ++ "/5"
  | Some JNull | None => "No rating"
  | Some v' => py_str libs v'
  end.

Definition is_bool (v : json) : bool :=
  match v with
  | JBool _ => true
  | _ => false
  end.

(** The same world with another outcome of [insert_one]. *)
Definition set_insert_outcome (w : World) (o : option py_exception) : World :=
  {| client := client w;
     utcnow_upload := utcnow_upload w;
     utcnow_save := utcnow_save w;
     put_outcome := put_outcome w;
     insert_outcome := o |}.

Definition text_suffixes : list string := [".pdf"; ".docx"; ".txt"].

(** Descending order of two documents by time stamp. *)
Definition newer_or_same (a b : eval_doc) : Prop :=
  (d_timestamp b <= d_timestamp a)%Z.

Definition newer (a b : eval_doc) : Prop :=
  (d_timestamp b < d_timestamp a)%Z.

(* ================================================================= *)
(** ** Concrete libraries, worlds and uploads *)

Module Demo.

(** A three-page PDF whose second page cannot be read. *)
Definition pages : list pdf_page :=
  [Ok (Some "a"); Raise (OtherException "KeyError"); Ok (Some "b")].

(** The evaluator answer of the specification's example. *)
Definition full_answer : dict :=
  [ ("accuracy_score", JInt 90); ("accuracy", JStr "ok");
    ("readability_score", JInt 80); ("readability", JStr "ok");
    ("consistency_score", JInt 85); ("consistency", JStr "ok");
    ("overall_rating", JFloat (Float "4.2")); ("summary", JStr "Good.") ].

(** The same answer without [summary]. *)
Definition answer_without_summary : dict :=
  [ ("accuracy_score", JInt 90); ("accuracy", JStr "ok");
    ("readability_score", JInt 80); ("readability", JStr "ok");
    ("consistency_score", JInt 85); ("consistency", JStr "ok");
    ("overall_rating", JFloat (Float "4.2")) ].

Definition libs : Libs := {|
  PdfReader := fun _ => Ok pages;
  docx_Document := fun _ => Ok ["first"; "second"];
  decode_utf8_ignore := fun raw => string_of_list_byte raw;
  json_loads := fun text =>
    if String.eqb text "full" then Ok (JObj full_answer)
    else if String.eqb text "partial" then Ok (JObj answer_without_summary)
    else Raise (ValueError "JSONDecodeError");
  ObjectId := fun s => Ok s;
  strftime := fun t => str_of_int t;
  str_of_container := fun _ => "[]"
|}.

(** A client whose response text is [text]. *)
Definition client_answering (text : string) : GeminiClient :=
  {| generate_content := fun _ _ _ => Ok text |}.

Definition world (text : string) : World := {|
  client := Some (client_answering text);
  utcnow_upload := 1000%Z;
  utcnow_save := 1001%Z;
  put_outcome := Ok 7%Z;
  insert_outcome := None
|}.

Definition empty_store : Store :=
  {| files_fs := []; evaluations_collection := [] |}.

Definition session : Session :=
  {| logged_in := true; user_id := Some "u1"; username := Some "ann" |}.

Definition upload (name mime : string) (data : bytes) : FileStorage :=
  {| file_filename := Some name;
     file_content_type := Some mime;
     file_read := data |}.

Definition hello : bytes := list_byte_of_string "Hello".

(** A text of 20001 characters. *)
Definition long_text : string :=
  string_of_list_ascii (repeat "a"%char (N.to_nat 20001)).

(** A stored document of user [uid] with time stamp [t]. *)
Definition doc_at (uid : oid) (t : datetime) : eval_doc := {|
  d_user_id := uid;
  d_username := Some "ann";
  d_timestamp := t;
  d_input_type := "document";
  d_file_id := 7%Z;
  d_original_filename := "book.txt";
  d_content_type := "text/plain";
  d_accuracy_score := JInt 90;
  d_readability_score := JInt 80;
  d_consistency_score := JInt 85;
  d_accuracy_text := JStr "ok";
  d_readability_text := JStr "ok";
  d_consistency_text := JStr "ok";
  d_overall_rating_value := JFloat (Float "4.2");
  d_overall_rating := "4.2/5";
  d_summary := JStr "Good.";
  d_full_extracted_text := Some "Hello";
  d_raw_evaluation := JObj full_answer
|}.

Definition store3 : Store :=
  {| files_fs := [];
     evaluations_collection := [doc_at "u1" 5%Z; doc_at "u2" 9%Z; doc_at "u1" 8%Z] |}.

End Demo.

(* ================================================================= *)
(** ** The account routes: /login, /register, /logout and / *)

(** A document of [users_collection].  The only writer of the collection
    is [register], which inserts these keys; [_id] is given by the store. *)
Record user_doc : Type := {
  u_id : oid;
  u_username : string;
  u_password_hash : string;
  u_created_at : datetime
}.

(** The two functions of werkzeug.security.  [generate_password_hash]
    draws a random salt, which is its second argument here. *)
Record Werkzeug : Type := {
  generate_password_hash : string -> string -> string;
  check_password_hash : string -> string -> bool
}.

(** [users_collection.find_one({"username": username})] *)
Fixpoint find_one (users : list user_doc) (name : string) : option user_doc :=
  match users with
  | [] => None
  | user :: rest =>
      if String.eqb (u_username user) name then Some user
      else find_one rest name
  end.

Inductive http_method : Type := GET | POST.

(** [request.form]: the two fields the routes read, when they are sent. *)
Record Form : Type := {
  form_username : option string;
  form_password : option string
}.

Inductive template : Type := login_html | register_html | main_app_html.

(** What an account route returns.  Reading a form field that was not
    sent makes Flask answer 400 (a [BadRequestKeyError]). *)
Inductive page : Type :=
| render_template_string (t : template) (error message : option string)
| redirect (endpoint : string) (message : option string)
| BadRequest
| PageUnhandled (e : py_exception).

Definition login (hz : Werkzeug) (users : list user_doc) (s : Session)
  (method : http_method) (form : Form) (args_message : option string)
  : page * Session :=
  match method with
  | POST =>
      match form_username form, form_password form with
      | Some name, Some password =>
          match find_one users name with
          | Some user =>
              if check_password_hash hz (u_password_hash user) password then
                (redirect "home" None,
                 {| logged_in := true;
                    user_id := Some (u_id user);
                    username := Some name |})
              else
                (render_template_string login_html
                   (Some "Invalid credentials") None, s)
          | None =>
              (render_template_string login_html
                 (Some "Invalid credentials") None, s)
          end
      | _, _ => (BadRequest, s)
      end
  | GET => (render_template_string login_html None args_message, s)
  end.

(** What is outside the program during one registration: the salt of the
    hash, the clock, and what [users_collection.insert_one] does (the id
    of the new document, or an exception, which the route does not
    catch). *)
Record RegisterWorld : Type := {
  salt : string;
  utcnow_register : datetime;
  insert_user_outcome : result oid
}.

Definition register (hz : Werkzeug) (rw : RegisterWorld)
  (users : list user_doc) (method : http_method) (form : Form)
  : page * list user_doc :=
  match method with
  | POST =>
      match form_username form, form_password form with
      | Some name, Some password =>
          match find_one users name with
          | Some _ =>
              (render_template_string register_html
                 (Some "Username already exists. Please choose a different one.")
                 None, users)
          | None =>
              let password_hash :=
                generate_password_hash hz password (salt rw) in
              match insert_user_outcome rw with
              | Raise e => (PageUnhandled e, users)
              | Ok new_id =>
                  (redirect "login"
                     (Some "Account created successfully! Please log in."),
                   users ++
                   [{| u_id := new_id;
                       u_username := name;
                       u_password_hash := password_hash;
                       u_created_at := utcnow_register rw |}])
              end
          end
      | _, _ => (BadRequest, users)
      end
  | GET => (render_template_string register_html None None, users)
  end.

(** [session.pop] of the three keys. *)
Definition logout (s : Session) : page * Session :=
  (redirect "login" None,
   {| logged_in := false; user_id := None; username := None |}).

Definition home (s : Session) : page :=
  if logged_in s then render_template_string main_app_html None None
  else redirect "login" None.

(* ================================================================= *)
(** ** More definitions used to state properties *)

(** Every character of the string is white space. *)
Fixpoint all_space (s : string) : bool :=
  match s with
  | EmptyString => true
  | String c s' => isspace c && all_space s'
  end.

(** The file that [analyze] hands to GridFS. *)
Definition stored_file (w : World) (uid : string) (fid : file_id)
  (file : FileStorage) : gridfs_file :=
  {| gf_id := fid;
     gf_data := file_read file;
     gf_filename := upload_filename file;
     gf_content_type := upload_content_type file;
     gf_uploaded_at := utcnow_upload w;
     gf_user_id := uid |}.

(** A route answer is an error answer with the given status. *)
Definition is_error_response (status : Z) (r : http_response) : Prop :=
  exists message, r = Response status (error_dict message).

Module Sample.

(** A hash that keeps the password readable, to run the account routes. *)
Definition hz : Werkzeug := {|
  generate_password_hash := fun password salt => (salt ++ "$" ++ password)%string;
  check_password_hash := fun pwhash password =>
    endswith pwhash ("$" ++ password)
|}.

Definition rw : RegisterWorld :=
  {| salt := "s1"; utcnow_register := 900%Z; insert_user_outcome := Ok "u9" |}.

Definition ann : user_doc :=
  {| u_id := "u1"; u_username := "ann"; u_password_hash := "s0$pw";
     u_created_at := 100%Z |}.

Definition form (name password : string) : Form :=
  {| form_username := Some name; form_password := Some password |}.

Definition anonymous : Session :=
  {| logged_in := false; user_id := None; username := None |}.

(** A text file of 20,000 blanks followed by a word. *)
Definition blanks_then_word : string :=
  string_of_list_ascii (repeat " "%char (N.to_nat 20000) ++ ["x"%char]).

(** Libraries whose decoder gives that text. *)
Definition libs_blanks : Libs := {|
  PdfReader := fun _ => Ok [];
  docx_Document := fun _ => Ok [];
  decode_utf8_ignore := fun _ => blanks_then_word;
  json_loads := json_loads Demo.libs;
  ObjectId := ObjectId Demo.libs;
  strftime := strftime Demo.libs;
  str_of_container := str_of_container Demo.libs
|}.

(** A PDF of two pages that both fail. *)
Definition libs_failing_pdf : Libs := {|
  PdfReader := fun _ =>
    Ok [Raise (OtherException "KeyError"); Raise (ValueError "bad page")];
  docx_Document := docx_Document Demo.libs;
  decode_utf8_ignore := decode_utf8_ignore Demo.libs;
  json_loads := json_loads Demo.libs;
  ObjectId := ObjectId Demo.libs;
  strftime := strftime Demo.libs;
  str_of_container := str_of_container Demo.libs
|}.

(** A PDF that cannot be opened. *)
Definition libs_corrupt_pdf : Libs := {|
  PdfReader := fun _ => Raise (OtherException "EOF marker not found");
  docx_Document := docx_Document Demo.libs;
  decode_utf8_ignore := decode_utf8_ignore Demo.libs;
  json_loads := json_loads Demo.libs;
  ObjectId := ObjectId Demo.libs;
  strftime := strftime Demo.libs;
  str_of_container := str_of_container Demo.libs
|}.

(** A client whose call raises. *)
Definition failing_client : GeminiClient :=
  {| generate_content := fun _ _ _ => Raise (OtherException "timeout") |}.

Definition world_with (c : option GeminiClient) : World := {|
  client := c;
  utcnow_upload := 1000%Z;
  utcnow_save := 1001%Z;
  put_outcome := Ok 7%Z;
  insert_outcome := None
|}.

Definition text_upload : FileStorage :=
  Demo.upload "b.txt" "text/plain" Demo.hello.

(** Libraries that take only strings of 24 characters for object ids. *)
Definition libs_strict_ids : Libs := {|
  PdfReader := PdfReader Demo.libs;
  docx_Document := docx_Document Demo.libs;
  decode_utf8_ignore := decode_utf8_ignore Demo.libs;
  json_loads := json_loads Demo.libs;
  ObjectId := fun s =>
    if (String.length s =? 24)%nat then Ok s
    else Raise (OtherException "InvalidId");
  strftime := strftime Demo.libs;
  str_of_container := str_of_container Demo.libs
|}.

(** Libraries whose JSON parser gives [v] for every text. *)
Definition libs_answering (v : json) : Libs := {|
  PdfReader := PdfReader Demo.libs;
  docx_Document := docx_Document Demo.libs;
  decode_utf8_ignore := decode_utf8_ignore Demo.libs;
  json_loads := fun _ => Ok v;
  ObjectId := ObjectId Demo.libs;
  strftime := strftime Demo.libs;
  str_of_container := str_of_container Demo.libs
|}.

End Sample.

(* ================================================================= *)
(** ** Facts about the string operations *)

Lemma slice_to_length (n : nat) (s : string) :
  String.length (slice_to n s) = Nat.min n (String.length s).
Proof.
  revert s; induction n as [|n IH]; intros [|c s]; simpl; auto.
Qed.

Lemma slice_to_is_prefix (n : nat) (s : string) :
  exists rest, s = (slice_to n s ++ rest)%string.
Proof.
  revert s; induction n as [|n IH]; intros s.
  - exists s; reflexivity.
  - destruct s as [|c s]; simpl.
    + exists ""; reflexivity.
    + destruct (IH s) as [rest Hrest].
      exists rest. f_equal. exact Hrest.
Qed.

Lemma slice_to_short (n : nat) (s : string) :
  (String.length s <= n)%nat -> slice_to n s = s.
Proof.
  revert s; induction n as [|n IH]; intros [|c s]; simpl; intros H;
    try reflexivity; try lia.
  f_equal. apply IH. lia.
Qed.

Lemma lower_char_idempotent (c : ascii) :
  lower_char (lower_char c) = lower_char c.
Proof.
  destruct c as [[] [] [] [] [] [] [] []]; reflexivity.
Qed.

Lemma lower_idempotent (s : string) : lower (lower s) = lower s.
Proof.
  induction s as [|c s IH]; simpl; [reflexivity|].
  rewrite lower_char_idempotent, IH. reflexivity.
Qed.

Lemma or_else_empty (s : string) : or_else s "" = s.
Proof.
  destruct s; reflexivity.
Qed.

Lemma truthy_false_iff (s : string) : truthy s = false <-> s = "".
Proof.
  destruct s; simpl; split; intros H; try reflexivity; discriminate.
Qed.

Lemma endswith_any_exists (s : string) (suffixes : list string) :
  endswith_any s suffixes = true <->
  exists suffix, In suffix suffixes /\ endswith s suffix = true.
Proof.
  unfold endswith_any. apply existsb_exists.
Qed.

(* ================================================================= *)
(** ** Facts about the page loop *)

Lemma collect_pages_app (pages : list pdf_page) (acc : list string) :
  collect_pages pages acc = acc ++ extracted_texts pages.
Proof.
  revert acc; induction pages as [|page rest IH]; intros acc; simpl.
  - now rewrite app_nil_r.
  - destruct page as [t|e].
    + rewrite IH, <- app_assoc. reflexivity.
    + apply IH.
Qed.

Lemma extracted_texts_length (pages : list pdf_page) :
  length (extracted_texts pages) = length (filter readable pages).
Proof.
  induction pages as [|[t|e] rest IH]; simpl; auto.
Qed.

Lemma extracted_texts_all_readable (pages : list pdf_page) :
  forallb readable pages = true ->
  extracted_texts pages = map spec_pdf_page_text pages.
Proof.
  induction pages as [|[t|e] rest IH]; simpl; intros H;
    try reflexivity; try discriminate.
  f_equal. apply IH, H.
Qed.

(* ================================================================= *)
(** ** Facts about the extractor *)

Lemma limit_text_spec (t : string) :
  limit_text t =
  if truthy (strip (slice_to MAX_CHARS t))
  then Ok (slice_to MAX_CHARS t) else Raise EmptyContent.
Proof.
  unfold limit_text, len. generalize MAX_CHARS as m. intros m.
  destruct (Nat.ltb_spec m (String.length t)) as [Hlt|Hle].
  - destruct (truthy (strip (slice_to m t))); reflexivity.
  - rewrite (slice_to_short _ _ Hle).
    destruct (truthy (strip t)); reflexivity.
Qed.

Lemma limit_text_not_blank (t r : string) :
  limit_text t = Ok r -> truthy r = true /\ truthy (strip r) = true.
Proof.
  rewrite limit_text_spec. generalize (slice_to MAX_CHARS t) as u. intros u.
  destruct (truthy (strip u)) eqn:E; [|discriminate].
  intros H; injection H as <-. split; [|exact E].
  destruct u; [discriminate E | reflexivity].
Qed.

Lemma read_text_lower (libs : Libs) (filename : string) (raw : bytes) :
  read_text libs filename raw = read_text libs (lower filename) raw.
Proof.
  unfold read_text. rewrite !or_else_empty, lower_idempotent. reflexivity.
Qed.

Lemma is_image_lower (filename content_type : string) :
  is_image filename content_type = is_image (lower filename) content_type.
Proof.
  unfold is_image. rewrite lower_idempotent. reflexivity.
Qed.

Lemma read_text_unsupported (libs : Libs) (filename : string) (raw : bytes) :
  endswith_any (lower filename) text_suffixes = false ->
  read_text libs filename raw = Raise UnsupportedFormat.
Proof.
  unfold endswith_any, text_suffixes, read_text; simpl.
  rewrite or_else_empty.
  destruct (endswith (lower filename) ".pdf"); [discriminate|].
  destruct (endswith (lower filename) ".docx"); [discriminate|].
  destruct (endswith (lower filename) ".txt"); [discriminate|].
  reflexivity.
Qed.

(** A payload that [classify] returns always has content for the
    evaluator: the image bytes, or a text that is not blank. *)
Lemma classify_has_content (libs : Libs) (filename content_type : string)
  (raw : bytes) (p : Payload) :
  classify libs filename content_type raw = Ok p ->
  no_content (Some (text_or_blank p)) (image_bytes p) = false.
Proof.
  unfold classify.
  destruct (is_image filename content_type).
  - intros H; injection H as <-. reflexivity.
  - unfold extract_text_from_file_bytes.
    destruct (read_text libs filename raw) as [t|e]; simpl; [|discriminate].
    destruct (limit_text t) as [r|e] eqn:E; simpl; [|discriminate].
    intros H; injection H as <-. simpl.
    destruct (limit_text_not_blank _ _ E) as [H1 H2].
    unfold no_content, blank, text_or_blank; simpl.
    rewrite or_else_empty, H1, H2. reflexivity.
Qed.

(* ================================================================= *)
(** ** Facts about the history query *)

Lemma insert_desc_perm (d : eval_doc) (l : list eval_doc) :
  Permutation (insert_desc d l) (d :: l).
Proof.
  induction l as [|x l IH]; simpl.
  - apply Permutation_refl.
  - destruct (d_timestamp x <=? d_timestamp d)%Z.
    + apply Permutation_refl.
    + eapply perm_trans; [apply perm_skip, IH | apply perm_swap].
Qed.

Lemma sort_desc_perm (l : list eval_doc) : Permutation (sort_desc l) l.
Proof.
  induction l as [|x l IH]; simpl.
  - apply perm_nil.
  - eapply perm_trans; [apply insert_desc_perm | apply perm_skip, IH].
Qed.

Lemma insert_desc_sorted (d : eval_doc) (l : list eval_doc) :
  StronglySorted newer_or_same l ->
  StronglySorted newer_or_same (insert_desc d l).
Proof.
  induction 1 as [|x l Hs IH Hx]; simpl.
  - constructor; constructor.
  - destruct (Z.leb_spec (d_timestamp x) (d_timestamp d)) as [Hle|Hgt].
    + constructor.
      * constructor; assumption.
      * constructor; [exact Hle|].
        eapply Forall_impl; [|exact Hx].
        unfold newer_or_same. intros b Hb. lia.
    + constructor; [exact IH|].
      apply (Permutation_Forall (Permutation_sym (insert_desc_perm d l))).
      constructor; [unfold newer_or_same; lia | exact Hx].
Qed.

Lemma sort_desc_sorted (l : list eval_doc) :
  StronglySorted newer_or_same (sort_desc l).
Proof.
  induction l as [|x l IH]; simpl.
  - constructor.
  - apply insert_desc_sorted, IH.
Qed.

Lemma in_firstn {A : Type} (n : nat) (l : list A) (a : A) :
  In a (firstn n l) -> In a l.
Proof.
  revert l; induction n as [|n IH]; intros [|x l]; simpl; try tauto.
  intros [H|H]; [left; exact H | right; apply IH, H].
Qed.

Lemma in_skipn {A : Type} (n : nat) (l : list A) (a : A) :
  In a (skipn n l) -> In a l.
Proof.
  revert l; induction n as [|n IH]; intros [|x l]; simpl; try tauto.
  intros H; right; apply IH, H.
Qed.

Lemma firstn_sorted (n : nat) (l : list eval_doc) :
  StronglySorted newer_or_same l ->
  StronglySorted newer_or_same (firstn n l).
Proof.
  intros H; revert n; induction H as [|x l Hs IH Hx]; intros [|n]; simpl;
    try constructor.
  - apply IH.
  - rewrite Forall_forall in *. intros b Hb.
    apply Hx. eapply in_firstn, Hb.
Qed.

(** In a sorted list, what [limit] keeps is at least as recent as what it
    leaves out. *)
Lemma firstn_newer_than_rest (n : nat) (l : list eval_doc) :
  StronglySorted newer_or_same l ->
  forall a b, In a (firstn n l) -> In b (skipn n l) -> newer_or_same a b.
Proof.
  intros H; revert n; induction H as [|x l Hs IH Hx]; intros [|n] a b;
    simpl; try tauto.
  intros [<-|Ha] Hb.
  - rewrite Forall_forall in Hx. apply Hx. eapply in_skipn, Hb.
  - eapply IH; eassumption.
Qed.

Lemma find_by_user_in (uid : oid) (docs : list eval_doc) (d : eval_doc) :
  In d (find_by_user uid docs) <-> In d docs /\ d_user_id d = uid.
Proof.
  unfold find_by_user. rewrite filter_In, String.eqb_eq. reflexivity.
Qed.

(** Documents with pairwise different time stamps: descending order is
    then strict. *)
Lemma sorted_distinct_is_strict (l : list eval_doc) :
  StronglySorted newer_or_same l ->
  NoDup (map d_timestamp l) ->
  StronglySorted newer l.
Proof.
  induction 1 as [|x l Hs IH Hx]; simpl; intros Hnd.
  - constructor.
  - inversion Hnd as [|t ts Hnotin Hnd']; subst.
    constructor; [apply IH, Hnd'|].
    rewrite Forall_forall in *. intros b Hb.
    specialize (Hx b Hb). unfold newer, newer_or_same in *.
    assert (d_timestamp b <> d_timestamp x).
    { intros Heq. apply Hnotin. rewrite <- Heq. apply in_map, Hb. }
    lia.
Qed.

Lemma cursor_timestamps_distinct (uid : oid) (st : Store) :
  NoDup (map d_timestamp (find_by_user uid (evaluations_collection st))) ->
  NoDup (map d_timestamp (cursor uid st)).
Proof.
  intros Hnd. unfold cursor, limit.
  set (l := sort_desc (find_by_user uid (evaluations_collection st))).
  assert (Hl : NoDup (map d_timestamp l)).
  { eapply Permutation_NoDup; [|exact Hnd].
    apply Permutation_map, Permutation_sym, sort_desc_perm. }
  rewrite <- (firstn_skipn 50 l), map_app in Hl.
  eapply NoDup_app_remove_r, Hl.
Qed.

(* ================================================================= *)
(** ** Facts about the evaluator call and the route *)

Lemma evaluate_with_content (libs : Libs) (c : GeminiClient)
  (text : option string) (image : option bytes) (mime : option string) :
  no_content text image = false ->
  evaluate_textbook_gemini libs (Some c) text image mime =
  match invoke libs c (build_contents text image mime) with
  | Ok data => data
  | Raise e => error_dict (InvocationFailed_message (exn_str e))
  end.
Proof.
  intros H. unfold evaluate_textbook_gemini. rewrite H. reflexivity.
Qed.

Lemma analyze_authenticated (libs : Libs) (w : World) (st : Store)
  (s : Session) (uid : string) (file : FileStorage) :
  logged_in s = true -> user_id s = Some uid ->
  analyze libs w st s (Some file) =
  match receive libs w st uid (upload_filename file)
          (upload_content_type file) (file_read file) with
  | (Raise e, st') => (rejection e, st')
  | (Ok (fid, p), st') =>
      evaluate_and_save libs w st' s uid fid (upload_filename file)
        (upload_content_type file) p
  end.
Proof.
  intros Hl Hu. unfold analyze. rewrite Hl, Hu. reflexivity.
Qed.

Lemma receive_classified (libs : Libs) (w : World) (st st' : Store)
  (uid filename content_type : string) (raw : bytes) (fid : file_id)
  (p : Payload) :
  receive libs w st uid filename content_type raw = (Ok (fid, p), st') ->
  put_outcome w = Ok fid
  /\ classify libs filename content_type raw = Ok p
  /\ evaluations_collection st' = evaluations_collection st.
Proof.
  unfold receive. destruct (put_outcome w) as [f|e]; [|discriminate].
  destruct (classify libs filename content_type raw) as [q|e]; simpl;
    [|discriminate].
  intros H; injection H as <- <- <-. auto.
Qed.

(** The resolved type of an image is never empty, so the evaluator's
    [image_mime or "image/jpeg"] keeps it. *)
Lemma resolved_mime_is_kept (content_type : string) :
  or_else (if startswith content_type "image/"
           then content_type else "image/jpeg") "image/jpeg"
  = if startswith content_type "image/" then content_type else "image/jpeg".
Proof.
  destruct (startswith content_type "image/") eqn:E; [|reflexivity].
  destruct content_type; [discriminate E | reflexivity].
Qed.

Lemma error_dict_has_error (d : dict) (msg : string) :
  JObj d = error_dict msg -> has_key d "error" = true.
Proof.
  intros H; injection H as ->. reflexivity.
Qed.

(* ================================================================= *)
(** ** The properties *)

(** C1, as stated, fails: with an evaluator whose answer is the JSON object
    of the specification's example without [summary], the client returns
    that object (no error is reported), and the route answers 200 and
    inserts a record. *)
Lemma missing_summary_counterexample :
  let libs := Demo.libs in
  let w := Demo.world "partial" in
  let file := Demo.upload "b.txt" "text/plain" Demo.hello in
  let data := evaluate_textbook_gemini libs (client w) (Some "Hello") None None in
  json_loads libs "partial" = Ok (JObj Demo.answer_without_summary)
  /\ missing_required Demo.answer_without_summary
  /\ data = JObj Demo.answer_without_summary
  /\ ~ InvocationFailed data
  /\ fst (analyze libs w Demo.empty_store Demo.session (Some file))
     = Response 200 (success_body Demo.answer_without_summary)
  /\ length (evaluations_collection
               (snd (analyze libs w Demo.empty_store Demo.session (Some file))))
     = 1%nat.
Proof.
  cbv zeta. split; [reflexivity|]. split.
  - exists "summary". split; [simpl; tauto | reflexivity].
  - split; [reflexivity|]. split; [|split; reflexivity].
    intros [details H]. vm_compute in H. discriminate H.
Qed.

(** C1, amended: an evaluator response that parses as a JSON object with no
    ["error"] key and lacks a required field is returned by the client as
    it is, not as an error; the route then answers 200 with the success
    body built from it (a missing field is filled with a default), and it
    inserts one record when the user id is valid and the insertion does not
    raise. *)
Theorem missing_field_is_accepted
  (libs : Libs) (w : World) (st st' : Store) (s : Session) (uid : string)
  (file : FileStorage) (c : GeminiClient) (fid : file_id) (p : Payload)
  (text : string) (d : dict) :
  logged_in s = true ->
  user_id s = Some uid ->
  receive libs w st uid (upload_filename file) (upload_content_type file)
    (file_read file) = (Ok (fid, p), st') ->
  client w = Some c ->
  generate_content c "gemini-2.5-flash"
    (build_contents (Some (text_or_blank p)) (image_bytes p) (image_mime p))
    evaluation_config = Ok text ->
  json_loads libs text = Ok (JObj d) ->
  missing_required d ->
  has_key d "error" = false ->
  evaluate_payload libs w p = JObj d
  /\ ~ InvocationFailed (evaluate_payload libs w p)
  /\ analyze libs w st s (Some file)
     = (Response 200 (success_body d),
        save libs w st' s uid fid (upload_filename file)
          (upload_content_type file) p d)
  /\ (forall o, ObjectId libs uid = Ok o -> insert_outcome w = None ->
      evaluations_collection
        (save libs w st' s uid fid (upload_filename file)
           (upload_content_type file) p d)
      = evaluations_collection st ++
        [make_eval_doc libs w s o fid (upload_filename file)
           (upload_content_type file) p d]).
Proof.
  intros Hl Hu Hr Hc Hg Hj _ He.
  destruct (receive_classified _ _ _ _ _ _ _ _ _ _ Hr) as (_ & Hcl & Hst).
  assert (Hdata : evaluate_payload libs w p = JObj d).
  { unfold evaluate_payload. rewrite Hc.
    rewrite evaluate_with_content by (eapply classify_has_content; eauto).
    unfold invoke. rewrite Hg. simpl. rewrite Hj. reflexivity. }
  split; [exact Hdata|]. split.
  - rewrite Hdata. intros [details H].
    apply error_dict_has_error in H. congruence.
  - split.
    + rewrite (analyze_authenticated _ _ _ _ _ _ Hl Hu), Hr.
      unfold evaluate_and_save. rewrite Hdata. simpl. rewrite He. reflexivity.
    + intros o Ho Hi. unfold save. rewrite Ho, Hi. simpl. rewrite Hst.
      reflexivity.
Qed.

Lemma missing_field_is_accepted_witness :
  exists doc,
    analyze Demo.libs (Demo.world "partial") Demo.empty_store Demo.session
      (Some (Demo.upload "b.txt" "text/plain" Demo.hello))
    = (Response 200 (success_body Demo.answer_without_summary),
       {| files_fs := files_fs
            (snd (analyze Demo.libs (Demo.world "partial") Demo.empty_store
                    Demo.session
                    (Some (Demo.upload "b.txt" "text/plain" Demo.hello))));
          evaluations_collection := [doc] |})
    /\ d_summary doc = JStr "".
Proof.
  pose proof
    (missing_field_is_accepted Demo.libs (Demo.world "partial")
       Demo.empty_store
       {| files_fs :=
            [{| gf_id := 7%Z; gf_data := Demo.hello; gf_filename := "b.txt";
                gf_content_type := "text/plain"; gf_uploaded_at := 1000%Z;
                gf_user_id := "u1" |}];
          evaluations_collection := [] |}
       Demo.session "u1"
       (Demo.upload "b.txt" "text/plain" Demo.hello)
       (Demo.client_answering "partial") 7%Z
       {| text_content := Some "Hello"; image_bytes := None;
          image_mime := None |}
       "partial" Demo.answer_without_summary
       eq_refl eq_refl eq_refl eq_refl eq_refl eq_refl
       (ex_intro _ "summary"
          (conj (or_intror (or_intror (or_intror (or_intror (or_intror
                   (or_intror (or_intror (or_introl eq_refl))))))))
                eq_refl))
       eq_refl) as (_ & _ & Ha & _).
  eexists. split.
  - rewrite Ha. vm_compute. reflexivity.
  - reflexivity.
Defined.

(** C2, as stated, fails: in a three-page PDF whose second page raises,
    the extracted text is the two readable pages joined by one newline;
    the failed page leaves no empty segment, so there are two joined
    texts for three pages. *)
Lemma pdf_failed_page_counterexample :
  PdfReader Demo.libs [] = Ok Demo.pages
  /\ read_text Demo.libs "book.pdf" [] = Ok ("a" ++ nl ++ "b")%string
  /\ spec_pdf_text Demo.pages = ("a" ++ nl ++ nl ++ "b")%string
  /\ read_text Demo.libs "book.pdf" [] <> Ok (spec_pdf_text Demo.pages)
  /\ length (collect_pages Demo.pages []) = 2%nat
  /\ length Demo.pages = 3%nat.
Proof.
  repeat split; try reflexivity.
  vm_compute. discriminate.
Qed.

(** C2, amended: for a PDF upload the text of every page whose extraction
    does not raise is taken (the empty string when the page gives none); a
    page whose extraction raises is skipped without aborting the document
    and contributes no segment; the texts taken are joined with newlines in
    page order, so their number is the number of pages that did not raise.
    When no page raises, this is one segment per page. *)
Theorem pdf_failed_page_is_skipped
  (libs : Libs) (filename : string) (raw : bytes) (pages : list pdf_page) :
  endswith (lower filename) ".pdf" = true ->
  PdfReader libs raw = Ok pages ->
  read_text libs filename raw = Ok (join nl (extracted_texts pages))
  /\ collect_pages pages [] = extracted_texts pages
  /\ length (extracted_texts pages) = length (filter readable pages)
  /\ (forallb readable pages = true ->
      read_text libs filename raw = Ok (spec_pdf_text pages)
      /\ length (extracted_texts pages) = length pages).
Proof.
  intros Hpdf Hpages.
  assert (Hc : collect_pages pages [] = extracted_texts pages)
    by apply collect_pages_app.
  assert (Hr : read_text libs filename raw
               = Ok (join nl (extracted_texts pages))).
  { unfold read_text. rewrite or_else_empty, Hpdf, Hpages. simpl.
    rewrite Hc. reflexivity. }
  repeat split; auto using extracted_texts_length.
  - rewrite Hr. unfold spec_pdf_text.
    rewrite extracted_texts_all_readable by assumption. reflexivity.
  - rewrite extracted_texts_all_readable by assumption. apply length_map.
Qed.

Lemma pdf_failed_page_is_skipped_witness :
  read_text Demo.libs "book.pdf" [] = Ok (join nl ["a"; "b"])
  /\ length (extracted_texts Demo.pages) = 2%nat.
Proof.
  destruct (pdf_failed_page_is_skipped Demo.libs "book.pdf" [] Demo.pages
              eq_refl eq_refl) as (H1 & _ & H2 & _).
  split; [exact H1 | exact H2].
Defined.

(** C3: for a supported text format whose reading gives the text [t], the
    extractor keeps the first 20,000 characters of [t] (all of [t] when it
    is not longer), so what it returns has at most 20,000 characters; it
    raises the "no readable text" error exactly when the kept text is empty
    after stripping, and returns the kept text otherwise. *)
Theorem extracted_text_is_bounded
  (libs : Libs) (filename : string) (raw : bytes) (t : string) :
  read_text libs filename raw = Ok t ->
  let kept := slice_to MAX_CHARS t in
  extract_text_from_file_bytes libs filename raw
  = (if truthy (strip kept) then Ok kept else Raise EmptyContent)
  /\ (extract_text_from_file_bytes libs filename raw = Raise EmptyContent
      <-> strip kept = "")
  /\ (forall r, extract_text_from_file_bytes libs filename raw = Ok r ->
      r = kept /\ (Z.of_nat (len r) <= 20000)%Z)
  /\ Z.of_nat (len kept) = Z.min 20000 (Z.of_nat (len t))
  /\ (exists rest, t = (kept ++ rest)%string)
  /\ ((Z.of_nat (len t) <= 20000)%Z -> kept = t).
Proof.
  intros Hread kept.
  assert (Hmax : Z.of_nat MAX_CHARS = 20000%Z).
  { unfold MAX_CHARS. rewrite N_nat_Z. reflexivity. }
  assert (Hlen : Z.of_nat (len kept) = Z.min 20000 (Z.of_nat (len t))).
  { unfold kept, len. rewrite slice_to_length.
    revert Hmax. generalize MAX_CHARS as m. intros m Hm. lia. }
  assert (Hx : extract_text_from_file_bytes libs filename raw
               = if truthy (strip kept) then Ok kept else Raise EmptyContent).
  { unfold extract_text_from_file_bytes. rewrite Hread. simpl.
    apply limit_text_spec. }
  split; [exact Hx|]. split; [|split; [|split; [exact Hlen|split]]].
  - rewrite Hx, <- truthy_false_iff.
    destruct (truthy (strip kept)); split; intros H;
      try reflexivity; discriminate.
  - intros r. rewrite Hx.
    destruct (truthy (strip kept)); [|discriminate].
    intros H; injection H as <-. split; [reflexivity | lia].
  - apply slice_to_is_prefix.
  - intros Hshort. apply slice_to_short.
    unfold len in Hshort. revert Hmax. generalize MAX_CHARS as m.
    intros m Hm. lia.
Qed.

Lemma extracted_text_is_bounded_witness :
  extract_text_from_file_bytes Demo.libs "notes.txt" Demo.hello = Ok "Hello"
  /\ (extract_text_from_file_bytes Demo.libs "notes.txt" Demo.hello
      = Raise EmptyContent <-> strip "Hello" = "").
Proof.
  destruct (extracted_text_is_bounded Demo.libs "notes.txt" Demo.hello
              "Hello" eq_refl) as (H1 & H2 & _).
  split; [exact H1 | exact H2].
Defined.

(** A text of 20,001 characters is cut to its first 20,000; a text of
    blanks is rejected. *)
Example long_text_is_cut :
  match extract_text_from_file_bytes Demo.libs "long.txt"
          (list_byte_of_string Demo.long_text) with
  | Ok r => (Z.of_nat (len r) =? 20000)%Z
            && String.eqb (r ++ "a") Demo.long_text
  | Raise _ => false
  end = true.
Proof.
  vm_compute. reflexivity.
Qed.

Example blank_text_is_rejected :
  extract_text_from_file_bytes Demo.libs "blank.txt"
    (list_byte_of_string "   ") = Raise EmptyContent.
Proof.
  reflexivity.
Qed.

(** C4: an upload is classified as an image exactly when its declared type
    starts with ["image/"] or its lowercased name ends with one of the six
    image suffixes, whatever else the name ends with; on the image branch
    the payload is the raw bytes with the declared type when that is an
    image type and ["image/jpeg"] otherwise, whatever the extraction
    libraries would do; otherwise the payload is the extracted text; a
    payload never has both a text and an image. *)
Theorem image_classification
  (libs : Libs) (filename content_type : string) (raw : bytes) :
  (is_image filename content_type = true <->
   startswith content_type "image/" = true
   \/ exists suffix, In suffix image_suffixes
                     /\ endswith (lower filename) suffix = true)
  /\ (is_image filename content_type = true ->
      classify libs filename content_type raw
      = Ok {| text_content := None;
              image_bytes := Some raw;
              image_mime := Some (if startswith content_type "image/"
                                  then content_type else "image/jpeg") |})
  /\ (is_image filename content_type = false ->
      classify libs filename content_type raw
      = (text <- extract_text_from_file_bytes libs filename raw ;;
         Ok {| text_content := Some text;
               image_bytes := None;
               image_mime := None |}))
  /\ (forall p, classify libs filename content_type raw = Ok p ->
      (is_image filename content_type = true
       /\ text_content p = None /\ image_bytes p = Some raw)
      \/ (is_image filename content_type = false
          /\ image_bytes p = None /\ image_mime p = None
          /\ extract_text_from_file_bytes libs filename raw
             = match text_content p with
               | Some text => Ok text
               | None => Raise EmptyContent
               end
          /\ text_content p <> None)).
Proof.
  split; [|split; [|split]].
  - unfold is_image. rewrite orb_true_iff, endswith_any_exists. reflexivity.
  - intros H. unfold classify. rewrite H. reflexivity.
  - intros H. unfold classify. rewrite H. reflexivity.
  - intros p. unfold classify.
    destruct (is_image filename content_type).
    + intros H; injection H as <-. left. auto.
    + destruct (extract_text_from_file_bytes libs filename raw) as [t|e];
        simpl; [|discriminate].
      intros H; injection H as <-. right. simpl.
      repeat split; auto. discriminate.
Qed.

Lemma image_classification_witness :
  is_image "scan.pdf" "image/png" = true
  /\ classify Demo.libs "scan.pdf" "image/png" Demo.hello
     = Ok {| text_content := None;
             image_bytes := Some Demo.hello;
             image_mime := Some "image/png" |}
  /\ classify Demo.libs "cover.png" "application/octet-stream" Demo.hello
     = Ok {| text_content := None;
             image_bytes := Some Demo.hello;
             image_mime := Some "image/jpeg" |}.
Proof.
  split; [reflexivity|]. split.
  - exact (proj1 (proj2 (image_classification Demo.libs "scan.pdf"
                           "image/png" Demo.hello)) eq_refl).
  - exact (proj1 (proj2 (image_classification Demo.libs "cover.png"
                           "application/octet-stream" Demo.hello)) eq_refl).
Defined.

Lemma has_key_in (d : dict) (key : string) :
  has_key d key = true -> In key (map fst d).
Proof.
  unfold has_key. induction d as [|[k v] d IH]; simpl; [discriminate|].
  destruct (String.eqb_spec k key) as [E|E]; [left; exact E|].
  intros H. right. apply IH, H.
Qed.

(** C5, as stated, fails: after two uploads of one user that are saved at
    the same time, the history holds two entries (for two different
    files) with the same time stamp, so it is not strictly descending. *)
Lemma history_ties_counterexample :
  let st1 :=
    snd (analyze Demo.libs (Demo.world "full") Demo.empty_store Demo.session
           (Some (Demo.upload "b.txt" "text/plain" Demo.hello))) in
  let st2 :=
    snd (analyze Demo.libs
           {| client := client (Demo.world "full");
              utcnow_upload := 1001%Z;
              utcnow_save := 1001%Z;
              put_outcome := Ok 8%Z;
              insert_outcome := None |} st1 Demo.session
           (Some (Demo.upload "c.txt" "text/plain" Demo.hello))) in
  exists a b,
    cursor "u1" st2 = [a; b]
    /\ d_original_filename a = "b.txt"
    /\ d_original_filename b = "c.txt"
    /\ d_timestamp a = d_timestamp b
    /\ user_history Demo.libs st2 Demo.session
       = Response 200
           (JObj [("history",
                   JArr [ JObj [ ("timestamp", JStr "1001");
                                 ("overall_rating", JStr "4.2/5");
                                 ("summary", JStr "Good.");
                                 ("original_filename", JStr "b.txt") ];
                          JObj [ ("timestamp", JStr "1001");
                                 ("overall_rating", JStr "4.2/5");
                                 ("summary", JStr "Good.");
                                 ("original_filename", JStr "c.txt") ] ])])
    /\ ~ StronglySorted newer (cursor "u1" st2).
Proof.
  cbv zeta. do 2 eexists.
  split; [vm_compute; reflexivity|].
  split; [reflexivity|]. split; [reflexivity|]. split; [reflexivity|].
  split; [vm_compute; reflexivity|].
  intros H.
  match type of H with
  | StronglySorted newer ?c => remember c as docs eqn:Hc
  end.
  vm_compute in Hc. subst docs.
  inversion H as [|a l _ Hf]; subst.
  inversion Hf as [|b l' Hn _]; subst.
  unfold newer in Hn. simpl in Hn. lia.
Qed.

(** C5, amended: for a logged-in user with a valid id, the history holds
    the entries of at most 50 documents of that user, ordered by
    descending time stamp: no entry is later than the one before it, and
    the order is strict when the user's documents have pairwise different
    time stamps; they are the most recent ones.  An entry has exactly the
    four keys [timestamp], [overall_rating], [summary] and
    [original_filename]; their values are the document's time stamp as
    [strftime] prints it, its display string, its summary and its file
    name, so the entry depends on no other field of the document. *)
Theorem history_is_recent_and_bounded
  (libs : Libs) (st : Store) (s : Session) (uid : string) (o : oid) :
  logged_in s = true ->
  user_id s = Some uid ->
  ObjectId libs uid = Ok o ->
  let docs := cursor o st in
  user_history libs st s
  = Response 200 (JObj [("history", JArr (map (history_entry libs) docs))])
  /\ (length (map (history_entry libs) docs) <= 50)%nat
  /\ StronglySorted newer_or_same docs
  /\ (NoDup (map d_timestamp
               (find_by_user o (evaluations_collection st))) ->
      StronglySorted newer docs)
  /\ (forall d, In d docs ->
      In d (evaluations_collection st) /\ d_user_id d = o)
  /\ (forall a b, In a docs -> In b (evaluations_collection st) ->
      d_user_id b = o -> ~ In b docs -> newer_or_same a b)
  /\ (forall d, exists entry,
        history_entry libs d = JObj entry
        /\ dict_get entry "timestamp"
           = Some (JStr (strftime libs (d_timestamp d)))
        /\ dict_get entry "overall_rating" = Some (JStr (d_overall_rating d))
        /\ dict_get entry "summary" = Some (d_summary d)
        /\ dict_get entry "original_filename"
           = Some (JStr (d_original_filename d))
        /\ length entry = 4%nat
        /\ (forall key, has_key entry key = true ->
            In key ["timestamp"; "overall_rating"; "summary";
                    "original_filename"]))
  /\ (forall d d',
        d_timestamp d = d_timestamp d' ->
        d_overall_rating d = d_overall_rating d' ->
        d_summary d = d_summary d' ->
        d_original_filename d = d_original_filename d' ->
        history_entry libs d = history_entry libs d').
Proof.
  intros Hl Hu Ho docs.
  pose (mine := find_by_user o (evaluations_collection st)).
  assert (Hsorted : StronglySorted newer_or_same (sort_desc mine))
    by apply sort_desc_sorted.
  split; [|split; [|split; [|split; [|split; [|split; [|split]]]]]].
  - unfold user_history. rewrite Hl, Hu, Ho. reflexivity.
  - rewrite length_map. unfold docs, cursor, limit. apply firstn_le_length.
  - apply firstn_sorted, Hsorted.
  - intros Hnd. apply sorted_distinct_is_strict.
    + apply firstn_sorted, Hsorted.
    + apply cursor_timestamps_distinct, Hnd.
  - intros d Hd. apply find_by_user_in.
    eapply Permutation_in; [apply sort_desc_perm|].
    eapply in_firstn, Hd.
  - intros a b Ha Hb Hbo Hnb.
    apply (firstn_newer_than_rest 50 (sort_desc mine) Hsorted a b Ha).
    assert (Hin : In b (sort_desc mine)).
    { eapply Permutation_in; [apply Permutation_sym, sort_desc_perm|].
      apply find_by_user_in. auto. }
    rewrite <- (firstn_skipn 50 (sort_desc mine)) in Hin.
    apply in_app_or in Hin. destruct Hin as [Hin|Hin]; [|exact Hin].
    contradiction.
  - intros d. eexists. split; [reflexivity|].
    repeat (split; [reflexivity|]).
    intros key Hk. exact (has_key_in _ _ Hk).
  - intros d d' H1 H2 H3 H4. unfold history_entry.
    rewrite H1, H2, H3, H4. reflexivity.
Qed.

Lemma history_is_recent_and_bounded_witness :
  user_history Demo.libs Demo.store3 Demo.session
  = Response 200
      (JObj [("history",
              JArr [ JObj [ ("timestamp", JStr "8");
                            ("overall_rating", JStr "4.2/5");
                            ("summary", JStr "Good.");
                            ("original_filename", JStr "book.txt") ];
                     JObj [ ("timestamp", JStr "5");
                            ("overall_rating", JStr "4.2/5");
                            ("summary", JStr "Good.");
                            ("original_filename", JStr "book.txt") ] ])])
  /\ dict_get [ ("timestamp", JStr "8"); ("overall_rating", JStr "4.2/5");
                ("summary", JStr "Good.");
                ("original_filename", JStr "book.txt") ] "timestamp"
     = Some (JStr (strftime Demo.libs 8%Z)).
Proof.
  destruct (history_is_recent_and_bounded Demo.libs Demo.store3
              Demo.session "u1" "u1" eq_refl eq_refl eq_refl)
    as (H & _ & _ & _ & _ & _ & He & _).
  split; [exact H|].
  destruct (He (Demo.doc_at "u1" 8%Z)) as (entry & Hj & Ht & _).
  injection Hj as <-. exact Ht.
Defined.

(** C6, as stated, fails: for the evaluator answer of the specification's
    example (overall rating 4.2) the success response carries the number
    4.2 under [overall_rating] and the string ["4.2/5"] nowhere; the
    display string is only stored in the record.  For the JSON value
    [true] the display is ["True/5"], not its string form ["True"]. *)
Lemma rating_display_counterexample :
  let libs := Demo.libs in
  let file := Demo.upload "b.txt" "text/plain" Demo.hello in
  let response :=
    fst (analyze libs (Demo.world "full") Demo.empty_store Demo.session
           (Some file)) in
  response = Response 200 (success_body Demo.full_answer)
  /\ (forall key, In (key, JStr "4.2/5")
                    [ ("accuracy_score", JInt 90); ("accuracy", JStr "ok");
                      ("readability_score", JInt 80);
                      ("readability", JStr "ok");
                      ("consistency_score", JInt 85);
                      ("consistency", JStr "ok");
                      ("overall_rating", JFloat (Float "4.2"));
                      ("summary", JStr "Good.") ] -> False)
  /\ success_body Demo.full_answer
     = JObj [ ("accuracy_score", JInt 90); ("accuracy", JStr "ok");
              ("readability_score", JInt 80); ("readability", JStr "ok");
              ("consistency_score", JInt 85); ("consistency", JStr "ok");
              ("overall_rating", JFloat (Float "4.2"));
              ("summary", JStr "Good.") ]
  /\ overall_str libs [("overall_rating", JBool true)] = "True/5"
  /\ spec_rating_display libs (Some (JBool true)) = "True"
  /\ overall_str libs [("overall_rating", JBool true)]
     <> spec_rating_display libs
          (dict_get [("overall_rating", JBool true)] "overall_rating").
Proof.
  cbv zeta. repeat split; try reflexivity.
  - intros key H. simpl in H.
    repeat (destruct H as [H|H]; [discriminate H|]). exact H.
  - vm_compute. discriminate.
Qed.

(** C6, amended: for an evaluator result whose overall rating is not a
    JSON boolean, the display string stored in the record is the value
    followed by ["/5"] when the rating is a number, the string form of the
    value when it is present and not a number, and ["No rating"]
    otherwise; the record keeps the rating itself as its value, the
    success response carries the rating itself, not the display string,
    and the history entry of the record shows the display string.
    For the rating 4.2 the stored display string is ["4.2/5"] and the
    stored value is 4.2. *)
Theorem rating_display_is_stored
  (libs : Libs) (w : World) (s : Session) (o : oid) (fid : file_id)
  (filename content_type : string) (p : Payload) (d : dict) :
  is_bool (get d "overall_rating" JNull) = false ->
  let doc := make_eval_doc libs w s o fid filename content_type p d in
  overall_str libs d = spec_rating_display libs (dict_get d "overall_rating")
  /\ d_overall_rating doc
     = spec_rating_display libs (dict_get d "overall_rating")
  /\ d_overall_rating_value doc = get d "overall_rating" JNull
  /\ (exists body, success_body d = JObj body
      /\ dict_get body "overall_rating"
         = Some (get d "overall_rating" unavailable))
  /\ (exists entry, history_entry libs doc = JObj entry
      /\ dict_get entry "overall_rating"
         = Some (JStr (spec_rating_display libs
                         (dict_get d "overall_rating"))))
  /\ spec_rating_display libs (Some (JFloat (Float "4.2"))) = "4.2/5".
Proof.
  intros Hb doc.
  assert (H : overall_str libs d
              = spec_rating_display libs (dict_get d "overall_rating")).
  { unfold overall_str, get in *.
    destruct (dict_get d "overall_rating") as [[]|]; simpl in *;
      try reflexivity; discriminate. }
  split; [exact H|]. split; [exact H|]. split; [reflexivity|].
  split; [eexists; split; reflexivity|]. split; [|reflexivity].
  eexists. split; [reflexivity|]. simpl. rewrite H. reflexivity.
Qed.

Lemma rating_display_is_stored_witness :
  let doc := make_eval_doc Demo.libs (Demo.world "full") Demo.session "u1"
               7%Z "b.txt" "text/plain"
               {| text_content := Some "Hello"; image_bytes := None;
                  image_mime := None |} Demo.full_answer in
  d_overall_rating doc = "4.2/5"
  /\ d_overall_rating_value doc = JFloat (Float "4.2").
Proof.
  destruct (rating_display_is_stored Demo.libs (Demo.world "full")
              Demo.session "u1" 7%Z "b.txt" "text/plain"
              {| text_content := Some "Hello"; image_bytes := None;
                 image_mime := None |} Demo.full_answer eq_refl)
    as (_ & H1 & H2 & _).
  split; [exact H1 | exact H2].
Defined.

(** C7: the response of the route is the same whether the insertion of the
    record raises or not; when the insertion raises, the collection is left
    as it was; and when the evaluator's answer is a dictionary without an
    ["error"] key, that response is the success response built from it. *)
Theorem response_ignores_save_failure
  (libs : Libs) (w : World) (st : Store) (s : Session)
  (files_file : option FileStorage) (e : py_exception) :
  fst (analyze libs (set_insert_outcome w (Some e)) st s files_file)
  = fst (analyze libs (set_insert_outcome w None) st s files_file)
  /\ evaluations_collection
       (snd (analyze libs (set_insert_outcome w (Some e)) st s files_file))
     = evaluations_collection st
  /\ (forall st' uid fid filename content_type p d,
        evaluate_payload libs w p = JObj d ->
        has_key d "error" = false ->
        fst (evaluate_and_save libs (set_insert_outcome w (Some e)) st' s uid
               fid filename content_type p)
        = Response 200 (success_body d)).
Proof.
  split; [|split].
  - unfold analyze.
    destruct (logged_in s); [|reflexivity].
    destruct (user_id s) as [uid|]; [|reflexivity].
    destruct files_file as [file|]; [|reflexivity].
    unfold receive; simpl.
    destruct (put_outcome w) as [fid|ex]; [|reflexivity].
    destruct (classify libs _ _ _) as [p|ex]; simpl; [|reflexivity].
    unfold evaluate_and_save, evaluate_payload; simpl.
    destruct (contains_error _) as [[|]|ex]; try reflexivity.
    destruct (evaluate_textbook_gemini _ _ _ _ _); reflexivity.
  - unfold analyze.
    destruct (logged_in s); [|reflexivity].
    destruct (user_id s) as [uid|]; [|reflexivity].
    destruct files_file as [file|]; [|reflexivity].
    unfold receive; simpl.
    destruct (put_outcome w) as [fid|ex]; [|reflexivity].
    destruct (classify libs _ _ _) as [p|ex]; simpl; [|reflexivity].
    unfold evaluate_and_save, evaluate_payload; simpl.
    destruct (contains_error _) as [[|]|ex]; try reflexivity.
    destruct (evaluate_textbook_gemini _ _ _ _ _); try reflexivity.
    unfold save; simpl. destruct (ObjectId libs uid); reflexivity.
  - intros st' uid fid filename content_type p d Hd He.
    unfold evaluate_and_save.
    change (evaluate_payload libs (set_insert_outcome w (Some e)) p)
      with (evaluate_payload libs w p).
    rewrite Hd. simpl. rewrite He. reflexivity.
Qed.

Lemma response_ignores_save_failure_witness :
  fst (analyze Demo.libs
         (set_insert_outcome (Demo.world "full")
            (Some (OtherException "ServerSelectionTimeoutError")))
         Demo.empty_store Demo.session
         (Some (Demo.upload "b.txt" "text/plain" Demo.hello)))
  = Response 200 (success_body Demo.full_answer).
Proof.
  rewrite (proj1 (response_ignores_save_failure Demo.libs (Demo.world "full")
                    Demo.empty_store Demo.session
                    (Some (Demo.upload "b.txt" "text/plain" Demo.hello))
                    (OtherException "ServerSelectionTimeoutError"))).
  reflexivity.
Defined.

(** C8: for a logged-in upload that is not classified as an image and
    whose lowercased name ends with none of [.pdf], [.docx], [.txt], the
    extractor raises the "unsupported document type" error; the route
    answers with status 400 and an error message, which is that error's
    remediation text whenever the upload reached the extractor, and the
    evaluations collection is left as it was. *)
Theorem unsupported_format_is_rejected
  (libs : Libs) (w : World) (st : Store) (s : Session) (uid : string)
  (file : FileStorage) :
  logged_in s = true ->
  user_id s = Some uid ->
  is_image (upload_filename file) (upload_content_type file) = false ->
  endswith_any (lower (upload_filename file)) text_suffixes = false ->
  extract_text_from_file_bytes libs (upload_filename file) (file_read file)
  = Raise UnsupportedFormat
  /\ (exists message,
        fst (analyze libs w st s (Some file))
        = Response 400 (error_dict message))
  /\ (forall fid, put_outcome w = Ok fid ->
      fst (analyze libs w st s (Some file))
      = Response 400
          (error_dict
             "Unsupported document type. Please upload PDF, DOCX, or TXT."))
  /\ evaluations_collection (snd (analyze libs w st s (Some file)))
     = evaluations_collection st.
Proof.
  intros Hl Hu Hi Ht.
  assert (Hx : extract_text_from_file_bytes libs (upload_filename file)
                 (file_read file) = Raise UnsupportedFormat).
  { unfold extract_text_from_file_bytes.
    rewrite (read_text_unsupported _ _ _ Ht). reflexivity. }
  split; [exact Hx|].
  rewrite (analyze_authenticated _ _ _ _ _ _ Hl Hu).
  unfold receive, classify. rewrite Hi, Hx. simpl.
  destruct (put_outcome w) as [fid|e]; simpl.
  - split; [eexists; reflexivity|]. split; [reflexivity|reflexivity].
  - split; [|split; [discriminate|reflexivity]].
    destruct e; eexists; reflexivity.
Qed.

Lemma unsupported_format_is_rejected_witness :
  analyze Demo.libs (Demo.world "full") Demo.empty_store Demo.session
    (Some (Demo.upload "notes.xyz" "application/octet-stream" Demo.hello))
  = (Response 400
       (error_dict
          "Unsupported document type. Please upload PDF, DOCX, or TXT."),
     snd (analyze Demo.libs (Demo.world "full") Demo.empty_store Demo.session
            (Some (Demo.upload "notes.xyz" "application/octet-stream"
                     Demo.hello))))
  /\ evaluations_collection
       (snd (analyze Demo.libs (Demo.world "full") Demo.empty_store
               Demo.session
               (Some (Demo.upload "notes.xyz" "application/octet-stream"
                        Demo.hello))))
     = [].
Proof.
  destruct (unsupported_format_is_rejected Demo.libs (Demo.world "full")
              Demo.empty_store Demo.session "u1"
              (Demo.upload "notes.xyz" "application/octet-stream" Demo.hello)
              eq_refl eq_refl eq_refl eq_refl) as (_ & _ & H & Hs).
  split; [|exact Hs].
  rewrite <- (H 7%Z eq_refl). apply surjective_pairing.
Defined.

(** C9: for an upload classified as an image the "no content" guard of the
    evaluator call is false, also when the uploaded bytes are empty: with a
    client configured, the model is called with the prompt and the image
    part, and the route goes on with what that call gives. *)
Theorem image_upload_reaches_evaluator
  (libs : Libs) (w : World) (st : Store) (s : Session) (uid : string)
  (file : FileStorage) (c : GeminiClient) (fid : file_id) :
  logged_in s = true ->
  user_id s = Some uid ->
  is_image (upload_filename file) (upload_content_type file) = true ->
  put_outcome w = Ok fid ->
  client w = Some c ->
  let mime := if startswith (upload_content_type file) "image/"
              then upload_content_type file else "image/jpeg" in
  exists (p : Payload) (st' : Store),
    receive libs w st uid (upload_filename file) (upload_content_type file)
      (file_read file) = (Ok (fid, p), st')
    /\ image_bytes p = Some (file_read file)
    /\ no_content (Some (text_or_blank p)) (image_bytes p) = false
    /\ evaluate_payload libs w p
       = match invoke libs c [Text prompt; ImagePart (file_read file) mime] with
         | Ok data => data
         | Raise e => error_dict (InvocationFailed_message (exn_str e))
         end
    /\ analyze libs w st s (Some file)
       = evaluate_and_save libs w st' s uid fid (upload_filename file)
           (upload_content_type file) p.
Proof.
  intros Hl Hu Hi Hp Hc mime.
  rewrite (analyze_authenticated _ _ _ _ _ _ Hl Hu).
  unfold receive, classify. rewrite Hp, Hi. simpl.
  do 2 eexists. split; [reflexivity|]. simpl.
  split; [reflexivity|]. split; [reflexivity|]. split; [|reflexivity].
  unfold evaluate_payload. rewrite Hc. simpl.
  subst mime.
  pose proof (resolved_mime_is_kept (upload_content_type file)) as Hm.
  set (m := if startswith (upload_content_type file) "image/"
            then upload_content_type file else "image/jpeg") in *.
  clearbody m.
  replace (build_contents _ _ _)
    with [Text prompt; ImagePart (file_read file) (or_else m "image/jpeg")]
    by reflexivity.
  rewrite Hm. reflexivity.
Qed.

Lemma image_upload_reaches_evaluator_witness :
  no_content (Some "") (Some []) = false
  /\ fst (analyze Demo.libs (Demo.world "full") Demo.empty_store Demo.session
            (Some (Demo.upload "page.png" "image/png" [])))
     = Response 200 (success_body Demo.full_answer).
Proof.
  destruct (image_upload_reaches_evaluator Demo.libs (Demo.world "full")
              Demo.empty_store Demo.session "u1"
              (Demo.upload "page.png" "image/png" [])
              (Demo.client_answering "full") 7%Z
              eq_refl eq_refl eq_refl eq_refl eq_refl)
    as (p & st' & Hr & Hb & Hn & He & Ha).
  split; [reflexivity|].
  rewrite Ha. unfold evaluate_and_save. rewrite He. reflexivity.
Defined.

(** C10: the tests on the file name see only its lowercased form: the
    image test, the extractor and the classification give the same result
    for a name and for its lowercased form; REPORT.PDF is read as a PDF and
    PAGE.PNG is an image. *)
Theorem extension_tests_ignore_case
  (libs : Libs) (filename content_type : string) (raw : bytes) :
  is_image filename content_type = is_image (lower filename) content_type
  /\ extract_text_from_file_bytes libs filename raw
     = extract_text_from_file_bytes libs (lower filename) raw
  /\ classify libs filename content_type raw
     = classify libs (lower filename) content_type raw
  /\ lower "REPORT.PDF" = "report.pdf"
  /\ lower "PAGE.PNG" = "page.png"
  /\ read_text libs "REPORT.PDF" raw
     = (pages <- PdfReader libs raw ;; Ok (join nl (collect_pages pages [])))
  /\ is_image "PAGE.PNG" content_type = true.
Proof.
  assert (Hx : extract_text_from_file_bytes libs filename raw
               = extract_text_from_file_bytes libs (lower filename) raw).
  { unfold extract_text_from_file_bytes.
    rewrite (read_text_lower libs filename). reflexivity. }
  split; [apply is_image_lower|]. split; [exact Hx|]. split.
  - unfold classify. rewrite <- is_image_lower, Hx. reflexivity.
  - repeat split; try reflexivity.
    unfold is_image. apply orb_true_r.
Qed.

(* ================================================================= *)
(** ** Further facts about the route *)

Lemma save_keeps_files (libs : Libs) (w : World) (st : Store) (s : Session)
  (uid : string) (fid : file_id) (filename content_type : string)
  (p : Payload) (d : dict) :
  files_fs (save libs w st s uid fid filename content_type p d) = files_fs st.
Proof.
  unfold save. destruct (ObjectId libs uid); [|reflexivity].
  destruct (insert_outcome w); reflexivity.
Qed.

Lemma evaluate_and_save_keeps_files (libs : Libs) (w : World) (st : Store)
  (s : Session) (uid : string) (fid : file_id)
  (filename content_type : string) (p : Payload) :
  files_fs (snd (evaluate_and_save libs w st s uid fid filename content_type p))
  = files_fs st.
Proof.
  unfold evaluate_and_save.
  destruct (contains_error _) as [[|]|e]; try reflexivity.
  destruct (evaluate_payload libs w p); try reflexivity.
  apply save_keeps_files.
Qed.

(** What [evaluate_and_save] does to the collection: nothing, or one
    insertion together with the success response. *)
Lemma evaluate_and_save_cases (libs : Libs) (w : World) (st : Store)
  (s : Session) (uid : string) (fid : file_id)
  (filename content_type : string) (p : Payload) :
  let r := evaluate_and_save libs w st s uid fid filename content_type p in
  evaluations_collection (snd r) = evaluations_collection st
  \/ (exists d o,
        evaluate_payload libs w p = JObj d
        /\ has_key d "error" = false
        /\ ObjectId libs uid = Ok o
        /\ insert_outcome w = None
        /\ fst r = Response 200 (success_body d)
        /\ evaluations_collection (snd r)
           = evaluations_collection st ++
             [make_eval_doc libs w s o fid filename content_type p d]).
Proof.
  cbv zeta. unfold evaluate_and_save.
  destruct (evaluate_payload libs w p) as [| | | | |l|d] eqn:E; simpl;
    try (left; reflexivity).
  - destruct (contains _ _); left; reflexivity.
  - destruct (existsb is_error_string l); left; reflexivity.
  - destruct (has_key d "error") eqn:He; simpl; [left; reflexivity|].
    unfold save.
    destruct (ObjectId libs uid) as [o|ex] eqn:Ho; [|left; reflexivity].
    destruct (insert_outcome w) as [ex|] eqn:Hi; [left; reflexivity|].
    right. exists d, o. repeat split; try reflexivity; assumption.
Qed.

Lemma receive_files (libs : Libs) (w : World) (st : Store)
  (uid filename content_type : string) (raw : bytes) (fid : file_id) :
  put_outcome w = Ok fid ->
  snd (receive libs w st uid filename content_type raw)
  = {| files_fs :=
         files_fs st ++
         [{| gf_id := fid; gf_data := raw; gf_filename := filename;
             gf_content_type := content_type;
             gf_uploaded_at := utcnow_upload w; gf_user_id := uid |}];
       evaluations_collection := evaluations_collection st |}
  /\ fst (receive libs w st uid filename content_type raw)
     = (p <- classify libs filename content_type raw ;; Ok (fid, p)).
Proof.
  intros H. unfold receive. rewrite H. split; reflexivity.
Qed.

Lemma receive_keeps_evaluations (libs : Libs) (w : World) (st : Store)
  (uid filename content_type : string) (raw : bytes) :
  evaluations_collection
    (snd (receive libs w st uid filename content_type raw))
  = evaluations_collection st.
Proof.
  unfold receive. destruct (put_outcome w); reflexivity.
Qed.

(** The route either leaves the collection as it was, or it went through
    every step and appended one document. *)
Lemma analyze_cases (libs : Libs) (w : World) (st : Store) (s : Session)
  (files_file : option FileStorage) :
  let r := analyze libs w st s files_file in
  evaluations_collection (snd r) = evaluations_collection st
  \/ (exists file uid o fid p d,
        files_file = Some file
        /\ logged_in s = true
        /\ user_id s = Some uid
        /\ put_outcome w = Ok fid
        /\ classify libs (upload_filename file) (upload_content_type file)
             (file_read file) = Ok p
        /\ evaluate_payload libs w p = JObj d
        /\ has_key d "error" = false
        /\ ObjectId libs uid = Ok o
        /\ insert_outcome w = None
        /\ fst r = Response 200 (success_body d)
        /\ evaluations_collection (snd r)
           = evaluations_collection st ++
             [make_eval_doc libs w s o fid (upload_filename file)
                (upload_content_type file) p d]).
Proof.
  cbv zeta. unfold analyze.
  destruct (logged_in s) eqn:Hl; [|left; reflexivity].
  destruct (user_id s) as [uid|] eqn:Hu; [|left; reflexivity].
  destruct files_file as [file|]; [|left; reflexivity].
  pose proof (receive_keeps_evaluations libs w st uid (upload_filename file)
                (upload_content_type file) (file_read file)) as Hk.
  destruct (receive libs w st uid (upload_filename file)
              (upload_content_type file) (file_read file))
    as [[[fid p]|e] st'] eqn:Hr; simpl in Hk; [|left; exact Hk].
  destruct (receive_classified _ _ _ _ _ _ _ _ _ _ Hr) as (Hp & Hc & _).
  destruct (evaluate_and_save_cases libs w st' s uid fid
              (upload_filename file) (upload_content_type file) p)
    as [H|(d & o & Hd & He & Ho & Hi & Hf & Hs)].
  - left. rewrite H. exact Hk.
  - right. exists file, uid, o, fid, p, d.
    rewrite Hs, Hk. repeat split; assumption.
Qed.

Lemma analyze_keeps_upload
  (libs : Libs) (w : World) (st : Store) (s : Session) (uid : string)
  (file : FileStorage) (fid : file_id) :
  logged_in s = true ->
  user_id s = Some uid ->
  put_outcome w = Ok fid ->
  files_fs (snd (analyze libs w st s (Some file)))
  = files_fs st ++ [stored_file w uid fid file].
Proof.
  intros Hl Hu Hp.
  rewrite (analyze_authenticated _ _ _ _ _ _ Hl Hu).
  destruct (receive_files libs w st uid (upload_filename file)
              (upload_content_type file) (file_read file) fid Hp)
    as [Hs Hf].
  destruct (receive libs w st uid (upload_filename file)
              (upload_content_type file) (file_read file))
    as [[[fid' p]|e] st']; simpl in Hs; subst st'.
  - rewrite evaluate_and_save_keeps_files. reflexivity.
  - reflexivity.
Qed.

(* ================================================================= *)
(** ** Further properties of the pipeline *)

(** X1: a request without a logged-in session, without a user id in the
    session, or without a file is refused (401 for the session, 400 for
    the file) before anything is written: both stores are left as they
    were. *)
Theorem refused_request_stores_nothing
  (libs : Libs) (w : World) (st : Store) (s : Session)
  (files_file : option FileStorage) :
  logged_in s = false \/ user_id s = None \/ files_file = None ->
  snd (analyze libs w st s files_file) = st
  /\ (fst (analyze libs w st s files_file)
      = Response 401 (error_dict "Unauthorized")
      \/ fst (analyze libs w st s files_file)
         = Response 400 (error_dict "No file found in request"))
  /\ (logged_in s = false \/ user_id s = None ->
      fst (analyze libs w st s files_file)
      = Response 401 (error_dict "Unauthorized")).
Proof.
  intros H. unfold analyze.
  destruct (logged_in s); [|repeat split; auto].
  destruct (user_id s) as [uid|]; [|repeat split; auto].
  destruct H as [H|[H|H]]; try discriminate. subst files_file.
  repeat split; auto. intros [H|H]; discriminate.
Qed.

Lemma refused_request_stores_nothing_witness :
  analyze Demo.libs (Demo.world "full") Demo.store3 Sample.anonymous
    (Some Sample.text_upload)
  = (Response 401 (error_dict "Unauthorized"), Demo.store3).
Proof.
  destruct (refused_request_stores_nothing Demo.libs (Demo.world "full")
              Demo.store3 Sample.anonymous (Some Sample.text_upload)
              (or_introl eq_refl)) as (H1 & _ & H2).
  rewrite <- H1 at 2. rewrite <- (H2 (or_introl eq_refl)).
  apply surjective_pairing.
Defined.

(** X2: once the session and the file are there and GridFS accepts the
    upload, the uploaded bytes are kept in GridFS under the route's file
    name, the declared type and the user id, whatever happens afterwards:
    also when the upload is then rejected or the evaluation fails. *)
Theorem upload_is_kept_in_gridfs
  (libs : Libs) (w : World) (st : Store) (s : Session) (uid : string)
  (file : FileStorage) (fid : file_id) :
  logged_in s = true ->
  user_id s = Some uid ->
  put_outcome w = Ok fid ->
  files_fs (snd (analyze libs w st s (Some file)))
  = files_fs st ++ [stored_file w uid fid file].
Proof.
  apply analyze_keeps_upload.
Qed.

Lemma upload_is_kept_in_gridfs_witness :
  files_fs
    (snd (analyze Demo.libs (Demo.world "full") Demo.empty_store
            Demo.session
            (Some (Demo.upload "notes.xyz" "application/octet-stream"
                     Demo.hello))))
  = [{| gf_id := 7%Z; gf_data := Demo.hello; gf_filename := "notes.xyz";
        gf_content_type := "application/octet-stream";
        gf_uploaded_at := 1000%Z; gf_user_id := "u1" |}].
Proof.
  exact (upload_is_kept_in_gridfs Demo.libs (Demo.world "full")
           Demo.empty_store Demo.session "u1"
           (Demo.upload "notes.xyz" "application/octet-stream" Demo.hello)
           7%Z eq_refl eq_refl eq_refl).
Defined.

(** X3: one request never removes or changes a stored evaluation and adds
    at most one; it adds one only together with a 200 response whose body
    is built from an evaluator answer without an ["error"] key, and the
    added document keeps that answer as its raw evaluation. *)
Theorem record_only_with_success
  (libs : Libs) (w : World) (st : Store) (s : Session)
  (files_file : option FileStorage) :
  let r := analyze libs w st s files_file in
  evaluations_collection (snd r) = evaluations_collection st
  \/ (exists d doc,
        fst r = Response 200 (success_body d)
        /\ has_key d "error" = false
        /\ d_raw_evaluation doc = JObj d
        /\ evaluations_collection (snd r)
           = evaluations_collection st ++ [doc]).
Proof.
  cbv zeta.
  destruct (analyze_cases libs w st s files_file)
    as [H|(file & uid & o & fid & p & d & _ & _ & _ & _ & _ & _ & He & _
           & _ & Hf & Hs)].
  - left. exact H.
  - right. eexists d, _. split; [exact Hf|]. split; [exact He|].
    split; [|exact Hs]. reflexivity.
Qed.

(** X4: a document that a request adds to the collection describes that
    request: it carries the id under which the upload was put into GridFS,
    the route's file name and declared type, the session's user, and the
    time of saving; its input type is ["image"] with no extracted text for
    an image upload, and ["document"] with the extracted text for a text
    upload. *)
Theorem record_describes_upload
  (libs : Libs) (w : World) (st : Store) (s : Session) (uid : string)
  (file : FileStorage) (doc : eval_doc) :
  logged_in s = true ->
  user_id s = Some uid ->
  evaluations_collection (snd (analyze libs w st s (Some file)))
  = evaluations_collection st ++ [doc] ->
  files_fs (snd (analyze libs w st s (Some file)))
  = files_fs st ++ [stored_file w uid (d_file_id doc) file]
  /\ ObjectId libs uid = Ok (d_user_id doc)
  /\ d_username doc = username s
  /\ d_timestamp doc = utcnow_save w
  /\ d_original_filename doc = upload_filename file
  /\ d_content_type doc = upload_content_type file
  /\ (is_image (upload_filename file) (upload_content_type file) = true
      /\ d_input_type doc = "image"
      /\ d_full_extracted_text doc = None
      \/ is_image (upload_filename file) (upload_content_type file) = false
         /\ d_input_type doc = "document"
         /\ exists text,
              extract_text_from_file_bytes libs (upload_filename file)
                (file_read file) = Ok text
              /\ d_full_extracted_text doc = Some text).
Proof.
  intros Hl Hu Hdoc.
  destruct (analyze_cases libs w st s (Some file))
    as [H|(file' & uid' & o & fid & p & d & Hf & _ & Hu' & Hp & Hc & _ & _
           & Ho & _ & _ & Hs)].
  - rewrite H in Hdoc. apply (f_equal (@length _)) in Hdoc.
    rewrite length_app in Hdoc. simpl in Hdoc. lia.
  - injection Hf as <-. rewrite Hu in Hu'. injection Hu' as <-.
    rewrite Hs in Hdoc. apply app_inv_head in Hdoc. injection Hdoc as <-.
    split; [exact (analyze_keeps_upload _ _ _ _ _ _ _ Hl Hu Hp)|].
    split; [exact Ho|]. repeat (split; [reflexivity|]).
    unfold classify in Hc. simpl.
    destruct (is_image (upload_filename file) (upload_content_type file)).
    + left. injection Hc as <-. auto.
    + right. unfold extract_text_from_file_bytes in *.
      destruct (read_text libs (upload_filename file) (file_read file))
        as [t|e]; simpl in *; [|discriminate].
      destruct (limit_text t) as [text|e] eqn:E; simpl in *; [|discriminate].
      injection Hc as <-. simpl.
      destruct (limit_text_not_blank _ _ E) as [Ht _]. rewrite Ht.
      split; [reflexivity|]. split; [reflexivity|].
      exists text. auto.
Qed.

Lemma record_describes_upload_witness :
  exists doc,
    evaluations_collection
      (snd (analyze Demo.libs (Demo.world "full") Demo.empty_store
              Demo.session (Some Sample.text_upload))) = [doc]
    /\ d_original_filename doc = "b.txt"
    /\ d_input_type doc = "document"
    /\ d_full_extracted_text doc = Some "Hello".
Proof.
  eexists. split; [reflexivity|].
  pose proof (record_describes_upload Demo.libs (Demo.world "full")
                Demo.empty_store Demo.session "u1" Sample.text_upload _
                eq_refl eq_refl eq_refl) as H.
  destruct H as (_ & _ & _ & _ & Hn & _ & _).
  split; [exact Hn|]. split; reflexivity.
Defined.

(** X5: when the global client is missing, the evaluator function answers
    with the "client not initialized" error whatever it is given, before
    looking at the content; an accepted upload then gets a 500 response
    with that error and no evaluation is stored. *)
Theorem missing_client_is_server_error
  (libs : Libs) (w : World) (st : Store) (s : Session) (uid : string)
  (file : FileStorage) (fid : file_id) (p : Payload) :
  logged_in s = true ->
  user_id s = Some uid ->
  put_outcome w = Ok fid ->
  classify libs (upload_filename file) (upload_content_type file)
    (file_read file) = Ok p ->
  client w = None ->
  (forall text image mime,
     evaluate_textbook_gemini libs (client w) text image mime
     = error_dict ClientUnavailable_message)
  /\ fst (analyze libs w st s (Some file))
     = Response 500 (error_dict ClientUnavailable_message)
  /\ evaluations_collection (snd (analyze libs w st s (Some file)))
     = evaluations_collection st.
Proof.
  intros Hl Hu Hp Hc Hn.
  split; [intros; rewrite Hn; reflexivity|].
  rewrite (analyze_authenticated _ _ _ _ _ _ Hl Hu).
  unfold receive. rewrite Hp, Hc. simpl.
  unfold evaluate_and_save, evaluate_payload. rewrite Hn. simpl.
  split; reflexivity.
Qed.

Lemma missing_client_is_server_error_witness :
  fst (analyze Demo.libs (Sample.world_with None) Demo.empty_store
         Demo.session (Some Sample.text_upload))
  = Response 500 (error_dict ClientUnavailable_message).
Proof.
  exact (proj1 (proj2 (missing_client_is_server_error Demo.libs
                         (Sample.world_with None) Demo.empty_store
                         Demo.session "u1" Sample.text_upload 7%Z
                         {| text_content := Some "Hello";
                            image_bytes := None; image_mime := None |}
                         eq_refl eq_refl eq_refl eq_refl eq_refl))).
Defined.

(** X6: when the call of the model raises, or its response text is not
    JSON, an accepted upload gets a 500 response whose error text ends
    with the text of the exception, and no evaluation is stored. *)
Theorem evaluator_failure_is_server_error
  (libs : Libs) (w : World) (st : Store) (s : Session) (uid : string)
  (file : FileStorage) (fid : file_id) (p : Payload) (c : GeminiClient)
  (e : py_exception) :
  logged_in s = true ->
  user_id s = Some uid ->
  put_outcome w = Ok fid ->
  classify libs (upload_filename file) (upload_content_type file)
    (file_read file) = Ok p ->
  client w = Some c ->
  invoke libs c
    (build_contents (Some (text_or_blank p)) (image_bytes p) (image_mime p))
  = Raise e ->
  fst (analyze libs w st s (Some file))
  = Response 500
      (error_dict
         ("Analysis Error: API call failed or returned invalid data. Details: "
          ++ exn_str e))
  /\ evaluations_collection (snd (analyze libs w st s (Some file)))
     = evaluations_collection st.
Proof.
  intros Hl Hu Hp Hc Hn Hi.
  rewrite (analyze_authenticated _ _ _ _ _ _ Hl Hu).
  unfold receive. rewrite Hp, Hc. simpl.
  unfold evaluate_and_save, evaluate_payload. rewrite Hn.
  rewrite evaluate_with_content by (eapply classify_has_content; eauto).
  rewrite Hi. simpl. split; reflexivity.
Qed.

Lemma evaluator_failure_is_server_error_witness :
  fst (analyze Demo.libs (Sample.world_with (Some Sample.failing_client))
         Demo.empty_store Demo.session (Some Sample.text_upload))
  = Response 500
      (error_dict
         "Analysis Error: API call failed or returned invalid data. Details: timeout")
  /\ fst (analyze Demo.libs (Demo.world "not json") Demo.empty_store
            Demo.session (Some Sample.text_upload))
     = Response 500
         (error_dict
            "Analysis Error: API call failed or returned invalid data. Details: JSONDecodeError").
Proof.
  split.
  - exact (proj1 (evaluator_failure_is_server_error Demo.libs
                    (Sample.world_with (Some Sample.failing_client))
                    Demo.empty_store Demo.session "u1" Sample.text_upload
                    7%Z
                    {| text_content := Some "Hello"; image_bytes := None;
                       image_mime := None |}
                    Sample.failing_client (OtherException "timeout")
                    eq_refl eq_refl eq_refl eq_refl eq_refl eq_refl)).
  - exact (proj1 (evaluator_failure_is_server_error Demo.libs
                    (Demo.world "not json")
                    Demo.empty_store Demo.session "u1" Sample.text_upload
                    7%Z
                    {| text_content := Some "Hello"; image_bytes := None;
                       image_mime := None |}
                    (Demo.client_answering "not json")
                    (ValueError "JSONDecodeError")
                    eq_refl eq_refl eq_refl eq_refl eq_refl eq_refl)).
Defined.

(** X7: when the first step fails for a logged-in upload (GridFS raises,
    a library cannot read the file, or the extractor raises one of its
    two errors), the answer has status 400 and an error text: the text of
    a [ValueError] as it is, the text of any other exception after
    ["Failed to process file: "]; no evaluation is stored, and the answer
    is the same whatever the evaluator client is. *)
Theorem failed_upload_is_client_error
  (libs : Libs) (w : World) (st st' : Store) (s : Session) (uid : string)
  (file : FileStorage) (e : py_exception) :
  logged_in s = true ->
  user_id s = Some uid ->
  receive libs w st uid (upload_filename file) (upload_content_type file)
    (file_read file) = (Raise e, st') ->
  analyze libs w st s (Some file)
  = (Response 400
       (error_dict match e with
                   | ValueError m => m
                   | OtherException m => ("Failed to process file: " ++ m)%string
                   end),
     st')
  /\ evaluations_collection st' = evaluations_collection st
  /\ (forall c,
        fst (analyze libs
               {| client := c;
                  utcnow_upload := utcnow_upload w;
                  utcnow_save := utcnow_save w;
                  put_outcome := put_outcome w;
                  insert_outcome := insert_outcome w |} st s (Some file))
        = fst (analyze libs w st s (Some file))).
Proof.
  intros Hl Hu Hr.
  split; [|split].
  - rewrite (analyze_authenticated _ _ _ _ _ _ Hl Hu), Hr.
    destruct e; reflexivity.
  - pose proof (receive_keeps_evaluations libs w st uid (upload_filename file)
                  (upload_content_type file) (file_read file)) as Hk.
    rewrite Hr in Hk. exact Hk.
  - intros c.
    rewrite !(analyze_authenticated _ _ _ _ _ _ Hl Hu).
    match goal with
    | |- context [receive libs ?w' st uid ?f ?t ?b] =>
        lazymatch w' with
        | w => fail
        | _ => replace (receive libs w' st uid f t b)
                 with (receive libs w st uid f t b) by reflexivity
        end
    end.
    rewrite Hr. reflexivity.
Qed.

Lemma failed_upload_is_client_error_witness :
  fst (analyze Sample.libs_corrupt_pdf (Demo.world "full") Demo.empty_store
         Demo.session
         (Some (Demo.upload "book.pdf" "application/pdf" Demo.hello)))
  = Response 400
      (error_dict "Failed to process file: EOF marker not found")
  /\ fst (analyze Demo.libs (Demo.world "full") Demo.empty_store
            Demo.session (Some (Demo.upload "blank.txt" "text/plain" [])))
     = Response 400
         (error_dict "No readable text found in the uploaded file.").
Proof.
  split.
  - exact (f_equal fst
             (proj1 (failed_upload_is_client_error Sample.libs_corrupt_pdf
                       (Demo.world "full") Demo.empty_store _ Demo.session
                       "u1"
                       (Demo.upload "book.pdf" "application/pdf" Demo.hello)
                       (OtherException "EOF marker not found")
                       eq_refl eq_refl eq_refl))).
  - exact (f_equal fst
             (proj1 (failed_upload_is_client_error Demo.libs
                       (Demo.world "full") Demo.empty_store _ Demo.session
                       "u1" (Demo.upload "blank.txt" "text/plain" [])
                       EmptyContent eq_refl eq_refl eq_refl))).
Defined.

(** X8: when the evaluator's answer is valid JSON but not an object (a
    number, a string, a list, [true] or [null]), the route never answers
    200 and stores no evaluation: a number, a boolean or [null] makes the
    membership test raise, and a string or a list either passes for an
    error answer (status 500) or makes the first field access raise. *)
Theorem non_object_answer_is_never_success
  (libs : Libs) (w : World) (st st' : Store) (s : Session) (uid : string)
  (file : FileStorage) (fid : file_id) (p : Payload) :
  logged_in s = true ->
  user_id s = Some uid ->
  receive libs w st uid (upload_filename file) (upload_content_type file)
    (file_read file) = (Ok (fid, p), st') ->
  (forall d, evaluate_payload libs w p <> JObj d) ->
  snd (analyze libs w st s (Some file)) = st'
  /\ (fst (analyze libs w st s (Some file))
      = Response 500 (evaluate_payload libs w p)
      \/ exists e, fst (analyze libs w st s (Some file)) = Unhandled e)
  /\ (match evaluate_payload libs w p with
      | JNull | JBool _ | JInt _ | JFloat _ =>
          exists e, fst (analyze libs w st s (Some file)) = Unhandled e
      | _ => True
      end).
Proof.
  intros Hl Hu Hr Hv.
  rewrite (analyze_authenticated _ _ _ _ _ _ Hl Hu), Hr.
  unfold evaluate_and_save.
  destruct (evaluate_payload libs w p) as [| | | | |l|d]; simpl;
    try (repeat split; eauto; fail).
  - destruct (contains _ _); simpl; repeat split; eauto.
  - destruct (existsb is_error_string l); simpl; repeat split; eauto.
  - exfalso. eapply Hv. reflexivity.
Qed.

Lemma non_object_answer_is_never_success_witness :
  analyze (Sample.libs_answering (JInt 5)) (Demo.world "5")
    Demo.empty_store Demo.session (Some Sample.text_upload)
  = (Unhandled (OtherException "TypeError: argument is not iterable"),
     snd (analyze (Sample.libs_answering (JInt 5)) (Demo.world "5")
            Demo.empty_store Demo.session (Some Sample.text_upload)))
  /\ evaluations_collection
       (snd (analyze (Sample.libs_answering (JInt 5)) (Demo.world "5")
               Demo.empty_store Demo.session (Some Sample.text_upload)))
     = [].
Proof.
  assert (Hv : forall d,
             evaluate_payload (Sample.libs_answering (JInt 5))
               (Demo.world "5")
               {| text_content := Some "Hello"; image_bytes := None;
                  image_mime := None |} <> JObj d)
    by (intros d; discriminate).
  destruct (non_object_answer_is_never_success
              (Sample.libs_answering (JInt 5)) (Demo.world "5")
              Demo.empty_store _ Demo.session "u1" Sample.text_upload 7%Z
              {| text_content := Some "Hello"; image_bytes := None;
                 image_mime := None |}
              eq_refl eq_refl eq_refl Hv) as (Hs & _ & _).
  split; [reflexivity|]. rewrite Hs. reflexivity.
Defined.

(* ================================================================= *)
(** ** Further facts about the string operations *)

Lemma lstrip_empty_iff (s : string) :
  lstrip s = "" <-> all_space s = true.
Proof.
  induction s as [|c s IH]; simpl; [tauto|].
  destruct (isspace c); simpl; [exact IH|].
  split; discriminate.
Qed.

Lemma rstrip_empty_iff (s : string) :
  rstrip s = "" <-> all_space s = true.
Proof.
  induction s as [|c s IH]; simpl; [tauto|].
  destruct (rstrip s) as [|c' r].
  - destruct (isspace c); simpl.
    + split; intros _; [apply IH|]; reflexivity.
    + split; discriminate.
  - split; [discriminate|].
    rewrite andb_true_iff. intros [_ H]. apply IH in H. discriminate.
Qed.

Lemma lstrip_head (s : string) (c : ascii) (r : string) :
  lstrip s = String c r -> isspace c = false.
Proof.
  induction s as [|a s IH]; simpl; [discriminate|].
  destruct (isspace a) eqn:E; [exact IH|].
  intros H; injection H as <- _. exact E.
Qed.

Lemma strip_empty_iff (s : string) :
  strip s = "" <-> all_space s = true.
Proof.
  unfold strip. rewrite rstrip_empty_iff. split.
  - intros H. apply lstrip_empty_iff.
    destruct (lstrip s) as [|c r] eqn:E; [reflexivity|].
    apply lstrip_head in E. simpl in H. rewrite E in H. discriminate.
  - intros H. apply lstrip_empty_iff in H. rewrite H. reflexivity.
Qed.

Lemma slice_to_idempotent (n : nat) (s : string) :
  slice_to n (slice_to n s) = slice_to n s.
Proof.
  revert s; induction n as [|n IH]; intros [|c s]; simpl; try reflexivity.
  f_equal. apply IH.
Qed.

Lemma join_nil (sep : string) : join sep [] = "".
Proof.
  reflexivity.
Qed.

(* ================================================================= *)
(** ** Further properties of the extractor *)

(** X9: a PDF that opens but of which no page can be read (every
    extraction raises, or there is no page) is not an error of its own:
    the text is empty, and the extractor raises its "no readable text"
    error. *)
Theorem unreadable_pdf_is_empty_content
  (libs : Libs) (filename : string) (raw : bytes) (pages : list pdf_page) :
  endswith (lower filename) ".pdf" = true ->
  PdfReader libs raw = Ok pages ->
  filter readable pages = [] ->
  read_text libs filename raw = Ok ""
  /\ extract_text_from_file_bytes libs filename raw = Raise EmptyContent.
Proof.
  intros Hpdf Hpages Hnone.
  assert (He : extracted_texts pages = []).
  { apply length_zero_iff_nil.
    rewrite extracted_texts_length, Hnone. reflexivity. }
  assert (Hr : read_text libs filename raw = Ok "").
  { unfold read_text. rewrite or_else_empty, Hpdf, Hpages. simpl.
    rewrite collect_pages_app, He. reflexivity. }
  split; [exact Hr|].
  unfold extract_text_from_file_bytes. rewrite Hr. reflexivity.
Qed.

Lemma unreadable_pdf_is_empty_content_witness :
  extract_text_from_file_bytes Sample.libs_failing_pdf "scan.PDF" Demo.hello
  = Raise EmptyContent.
Proof.
  exact (proj2 (unreadable_pdf_is_empty_content Sample.libs_failing_pdf
                  "scan.PDF" Demo.hello
                  [Raise (OtherException "KeyError");
                   Raise (ValueError "bad page")]
                  eq_refl eq_refl eq_refl)).
Defined.

(** X10: the blank test looks at the kept text only: the extractor raises
    its "no readable text" error exactly when each of the first 20,000
    characters of the text is white space, so a text with content only
    after 20,000 blanks is rejected, and a text with a character that is
    not white space among the first 20,000 is returned. *)
Theorem blank_test_sees_kept_text_only
  (libs : Libs) (filename : string) (raw : bytes) (t : string) :
  read_text libs filename raw = Ok t ->
  (extract_text_from_file_bytes libs filename raw = Raise EmptyContent
   <-> all_space (slice_to MAX_CHARS t) = true)
  /\ (extract_text_from_file_bytes libs filename raw
      = Ok (slice_to MAX_CHARS t)
      <-> all_space (slice_to MAX_CHARS t) = false).
Proof.
  intros Hread.
  assert (Hx : extract_text_from_file_bytes libs filename raw
               = if truthy (strip (slice_to MAX_CHARS t))
                 then Ok (slice_to MAX_CHARS t) else Raise EmptyContent).
  { unfold extract_text_from_file_bytes. rewrite Hread. unfold bind.
    apply limit_text_spec. }
  rewrite Hx. generalize (slice_to MAX_CHARS t) as kept. intros kept.
  pose proof (strip_empty_iff kept) as Hs.
  pose proof (truthy_false_iff (strip kept)) as Ht.
  destruct (truthy (strip kept)); destruct (all_space kept).
  - exfalso. assert (H : strip kept = "") by (apply Hs; reflexivity).
    apply Ht in H. discriminate.
  - split; split; intros H; try reflexivity; discriminate.
  - split; split; intros H; try reflexivity; discriminate.
  - exfalso. assert (H : strip kept = "") by (apply Ht; reflexivity).
    apply Hs in H. discriminate.
Qed.

Lemma blank_test_sees_kept_text_only_witness :
  extract_text_from_file_bytes Sample.libs_blanks "late.txt" []
  = Raise EmptyContent
  /\ all_space Sample.blanks_then_word = false.
Proof.
  split.
  - apply (proj1 (blank_test_sees_kept_text_only Sample.libs_blanks
                    "late.txt" []
                    (decode_utf8_ignore Sample.libs_blanks []) eq_refl)).
    vm_compute. reflexivity.
  - vm_compute. reflexivity.
Defined.

(** X11: a text that the extractor returns is never blank and passes the
    extractor's own limits unchanged; given to the evaluator without an
    image, it does not count as "no content" and is sent as it is right
    after the prompt. *)
Theorem extracted_text_is_evaluable
  (libs : Libs) (filename : string) (raw : bytes) (r : string) :
  extract_text_from_file_bytes libs filename raw = Ok r ->
  all_space r = false
  /\ limit_text r = Ok r
  /\ no_content (Some r) None = false
  /\ forall mime, build_contents (Some r) None mime = [Text prompt; Text r].
Proof.
  unfold extract_text_from_file_bytes.
  destruct (read_text libs filename raw) as [t|e]; unfold bind;
    [|discriminate].
  intros H.
  destruct (limit_text_not_blank _ _ H) as [H1 H2].
  assert (Hs : all_space r = false).
  { destruct (all_space r) eqn:E; [|reflexivity].
    apply strip_empty_iff in E. rewrite E in H2. discriminate. }
  assert (Hk : slice_to MAX_CHARS r = r).
  { revert H. rewrite limit_text_spec. generalize MAX_CHARS as m. intros m.
    destruct (truthy (strip (slice_to m t))); [|discriminate].
    intros H; injection H as <-. apply slice_to_idempotent. }
  split; [exact Hs|]. split; [|split].
  - rewrite limit_text_spec, Hk, H2. reflexivity.
  - unfold no_content, blank. rewrite H1, H2. reflexivity.
  - intros mime. unfold build_contents. rewrite H1, H2. reflexivity.
Qed.

Lemma extracted_text_is_evaluable_witness :
  limit_text "Hello" = Ok "Hello"
  /\ build_contents (Some "Hello") None None = [Text prompt; Text "Hello"].
Proof.
  destruct (extracted_text_is_evaluable Demo.libs "notes.txt" Demo.hello
              "Hello" eq_refl) as (_ & H1 & _ & H2).
  split; [exact H1 | exact (H2 None)].
Defined.

(** X12: an upload without a file name (the camera capture) is handled
    under the name ["camera_capture.jpg"], so it is always an image: the
    payload is the raw bytes with the declared type when that is an image
    type and ["image/jpeg"] otherwise, and the text extractor and its
    errors are never reached. *)
Theorem nameless_upload_is_an_image
  (libs : Libs) (file : FileStorage) :
  file_filename file = None \/ file_filename file = Some "" ->
  upload_filename file = "camera_capture.jpg"
  /\ is_image (upload_filename file) (upload_content_type file) = true
  /\ classify libs (upload_filename file) (upload_content_type file)
       (file_read file)
     = Ok {| text_content := None;
             image_bytes := Some (file_read file);
             image_mime :=
               Some (if startswith (upload_content_type file) "image/"
                     then upload_content_type file else "image/jpeg") |}.
Proof.
  intros H.
  assert (Hn : upload_filename file = "camera_capture.jpg").
  { unfold upload_filename. destruct H as [H|H]; rewrite H; reflexivity. }
  assert (Hi : is_image (upload_filename file) (upload_content_type file)
               = true).
  { rewrite Hn. unfold is_image. apply orb_true_r. }
  split; [exact Hn|]. split; [exact Hi|].
  unfold classify. rewrite Hi. reflexivity.
Qed.

Lemma nameless_upload_is_an_image_witness :
  classify Demo.libs
    (upload_filename {| file_filename := None; file_content_type := None;
                        file_read := Demo.hello |})
    (upload_content_type {| file_filename := None; file_content_type := None;
                            file_read := Demo.hello |})
    Demo.hello
  = Ok {| text_content := None; image_bytes := Some Demo.hello;
          image_mime := Some "image/jpeg" |}.
Proof.
  exact (proj2 (proj2 (nameless_upload_is_an_image Demo.libs
                         {| file_filename := None; file_content_type := None;
                            file_read := Demo.hello |}
                         (or_introl eq_refl)))).
Defined.

(* ================================================================= *)
(** ** Further properties of the history *)

Lemma sort_desc_length (l : list eval_doc) :
  length (sort_desc l) = length l.
Proof.
  apply Permutation_length, sort_desc_perm.
Qed.

Lemma sort_desc_newest (l : list eval_doc) (d : eval_doc) :
  (forall x, In x l -> newer d x) ->
  sort_desc (l ++ [d]) = d :: sort_desc l.
Proof.
  induction l as [|x l IH]; intros H; [reflexivity|].
  change (sort_desc ((x :: l) ++ [d]))
    with (insert_desc x (sort_desc (l ++ [d]))).
  rewrite IH by (intros y Hy; apply H; right; exact Hy).
  simpl.
  assert (Hx : newer d x) by (apply H; left; reflexivity).
  unfold newer in Hx.
  destruct (Z.leb_spec (d_timestamp d) (d_timestamp x)); [lia|reflexivity].
Qed.

Lemma find_by_user_snoc (o : oid) (l : list eval_doc) (d : eval_doc) :
  d_user_id d = o ->
  find_by_user o (l ++ [d]) = find_by_user o l ++ [d].
Proof.
  intros H. unfold find_by_user. rewrite filter_app. simpl.
  rewrite H, String.eqb_refl. reflexivity.
Qed.

(** X13: when the user has at most 50 stored evaluations, the history
    shows every one of them, each once, and nothing else. *)
Theorem small_history_is_complete
  (libs : Libs) (st : Store) (s : Session) (uid : string) (o : oid) :
  logged_in s = true ->
  user_id s = Some uid ->
  ObjectId libs uid = Ok o ->
  (length (find_by_user o (evaluations_collection st)) <= 50)%nat ->
  exists docs,
    user_history libs st s
    = Response 200 (JObj [("history", JArr (map (history_entry libs) docs))])
    /\ Permutation docs (find_by_user o (evaluations_collection st))
    /\ length (map (history_entry libs) docs)
       = length (find_by_user o (evaluations_collection st)).
Proof.
  intros Hl Hu Ho Hlen.
  exists (cursor o st).
  assert (Hc : cursor o st
               = sort_desc (find_by_user o (evaluations_collection st))).
  { unfold cursor, limit. apply firstn_all2.
    rewrite sort_desc_length. exact Hlen. }
  split; [|split].
  - unfold user_history. rewrite Hl, Hu, Ho. reflexivity.
  - rewrite Hc. apply sort_desc_perm.
  - rewrite length_map, Hc. apply sort_desc_length.
Qed.

Lemma small_history_is_complete_witness :
  exists docs,
    user_history Demo.libs Demo.store3 Demo.session
    = Response 200
        (JObj [("history", JArr (map (history_entry Demo.libs) docs))])
    /\ Permutation docs [Demo.doc_at "u1" 5%Z; Demo.doc_at "u1" 8%Z].
Proof.
  destruct (small_history_is_complete Demo.libs Demo.store3 Demo.session
              "u1" "u1" eq_refl eq_refl eq_refl)
    as (docs & H1 & H2 & _).
  - simpl. lia.
  - exists docs. split; [exact H1 | exact H2].
Defined.

(** X14: after a request has stored an evaluation whose time of saving is
    later than the time stamps of the user's earlier evaluations, the
    user's history starts with the entry of that evaluation (its file
    name, its display string and its summary), followed by the entries of
    the 49 most recent earlier ones. *)
Theorem new_evaluation_heads_history
  (libs : Libs) (w : World) (st : Store) (s : Session) (uid : string)
  (o : oid) (file : FileStorage) (doc : eval_doc) :
  logged_in s = true ->
  user_id s = Some uid ->
  ObjectId libs uid = Ok o ->
  evaluations_collection (snd (analyze libs w st s (Some file)))
  = evaluations_collection st ++ [doc] ->
  (forall d, In d (evaluations_collection st) -> d_user_id d = o ->
             (d_timestamp d < utcnow_save w)%Z) ->
  user_history libs (snd (analyze libs w st s (Some file))) s
  = Response 200
      (JObj [("history",
              JArr (history_entry libs doc
                    :: map (history_entry libs)
                         (firstn 49
                            (sort_desc
                               (find_by_user o
                                  (evaluations_collection st))))))])
  /\ d_original_filename doc = upload_filename file
  /\ d_user_id doc = o.
Proof.
  intros Hl Hu Ho Hdoc Hnew.
  assert (Hd : d_user_id doc = o /\ d_timestamp doc = utcnow_save w
               /\ d_original_filename doc = upload_filename file).
  { destruct (analyze_cases libs w st s (Some file))
      as [H|(file' & uid' & o' & fid & p & d & Hf & _ & Hu' & _ & _ & _ & _
             & Ho' & _ & _ & Hs)].
    - rewrite H in Hdoc. apply (f_equal (@length _)) in Hdoc.
      rewrite length_app in Hdoc. simpl in Hdoc. lia.
    - injection Hf as <-. rewrite Hu in Hu'. injection Hu' as <-.
      rewrite Ho in Ho'. injection Ho' as <-.
      rewrite Hs in Hdoc. apply app_inv_head in Hdoc. injection Hdoc as <-.
      repeat split; reflexivity. }
  destruct Hd as (Hdo & Hdt & Hdn).
  split; [|split; assumption].
  unfold user_history. rewrite Hl, Hu, Ho.
  unfold cursor, limit. rewrite Hdoc, (find_by_user_snoc _ _ _ Hdo).
  rewrite sort_desc_newest.
  - reflexivity.
  - intros x Hx. apply find_by_user_in in Hx. destruct Hx as [Hx1 Hx2].
    unfold newer. rewrite Hdt. apply Hnew; assumption.
Qed.

Lemma new_evaluation_heads_history_witness :
  user_history Demo.libs
    (snd (analyze Demo.libs (Demo.world "full") Demo.store3 Demo.session
            (Some Sample.text_upload))) Demo.session
  = Response 200
      (JObj [("history",
              JArr [ JObj [ ("timestamp", JStr "1001");
                            ("overall_rating", JStr "4.2/5");
                            ("summary", JStr "Good.");
                            ("original_filename", JStr "b.txt") ];
                     history_entry Demo.libs (Demo.doc_at "u1" 8%Z);
                     history_entry Demo.libs (Demo.doc_at "u1" 5%Z) ])]).
Proof.
  refine (proj1 (new_evaluation_heads_history Demo.libs (Demo.world "full")
                   Demo.store3 Demo.session "u1" "u1" Sample.text_upload _
                   eq_refl eq_refl eq_refl eq_refl _)).
  intros d Hd _. simpl in Hd.
  destruct Hd as [<-|[<-|[<-|[]]]]; simpl; lia.
Defined.

(** X15: when the user id of the session is not a valid object id, the
    history is empty whatever is stored, and an upload is still evaluated
    and answered as usual but its evaluation is never stored. *)
Theorem invalid_user_id_never_persists
  (libs : Libs) (w : World) (st : Store) (s : Session) (uid : string)
  (files_file : option FileStorage) (e : py_exception) :
  logged_in s = true ->
  user_id s = Some uid ->
  ObjectId libs uid = Raise e ->
  user_history libs st s = Response 200 (JObj [("history", JArr [])])
  /\ evaluations_collection (snd (analyze libs w st s files_file))
     = evaluations_collection st
  /\ (forall file fid p d,
        files_file = Some file ->
        put_outcome w = Ok fid ->
        classify libs (upload_filename file) (upload_content_type file)
          (file_read file) = Ok p ->
        evaluate_payload libs w p = JObj d ->
        has_key d "error" = false ->
        fst (analyze libs w st s files_file) = Response 200 (success_body d)).
Proof.
  intros Hl Hu Ho. split; [|split].
  - unfold user_history. rewrite Hl, Hu, Ho. reflexivity.
  - destruct (analyze_cases libs w st s files_file)
      as [H|(file' & uid' & o' & fid & p & d & _ & _ & Hu' & _ & _ & _ & _
             & Ho' & _)]; [exact H|].
    rewrite Hu in Hu'. injection Hu' as <-. congruence.
  - intros file fid p d -> Hp Hc Hd He.
    rewrite (analyze_authenticated _ _ _ _ _ _ Hl Hu).
    unfold receive. rewrite Hp, Hc. simpl.
    unfold evaluate_and_save. rewrite Hd. simpl. rewrite He. reflexivity.
Qed.

Lemma invalid_user_id_never_persists_witness :
  user_history Sample.libs_strict_ids Demo.store3 Demo.session
  = Response 200 (JObj [("history", JArr [])])
  /\ analyze Sample.libs_strict_ids (Demo.world "full") Demo.store3
       Demo.session (Some Sample.text_upload)
     = (Response 200 (success_body Demo.full_answer),
        {| files_fs :=
             [stored_file (Demo.world "full") "u1" 7%Z Sample.text_upload];
           evaluations_collection := evaluations_collection Demo.store3 |}).
Proof.
  destruct (invalid_user_id_never_persists Sample.libs_strict_ids
              (Demo.world "full") Demo.store3 Demo.session "u1"
              (Some Sample.text_upload) (OtherException "InvalidId")
              eq_refl eq_refl eq_refl) as (H1 & _ & _).
  split; [exact H1 | reflexivity].
Defined.

(* ================================================================= *)
(** ** Properties of the account routes *)

Lemma find_one_some (users : list user_doc) (name : string) (u : user_doc) :
  find_one users name = Some u -> In u users /\ u_username u = name.
Proof.
  induction users as [|x users IH]; simpl; [discriminate|].
  destruct (String.eqb_spec (u_username x) name) as [E|E].
  - intros H; injection H as <-. auto.
  - intros H. destruct (IH H). auto.
Qed.

Lemma find_one_none (users : list user_doc) (name : string) :
  find_one users name = None <-> ~ In name (map u_username users).
Proof.
  induction users as [|x users IH]; simpl; [tauto|].
  destruct (String.eqb_spec (u_username x) name) as [E|E].
  - split; [discriminate|]. intros H. exfalso. apply H. left. exact E.
  - rewrite IH. tauto.
Qed.

Lemma find_one_snoc (users : list user_doc) (name : string) (u : user_doc) :
  find_one users name = None ->
  u_username u = name ->
  find_one (users ++ [u]) name = Some u.
Proof.
  intros Hn Hu. induction users as [|x users IH]; simpl in *.
  - rewrite Hu, String.eqb_refl. reflexivity.
  - destruct (String.eqb (u_username x) name); [discriminate|].
    apply IH, Hn.
Qed.

(** X16: registration keeps the accounts it finds and adds at most one;
    it never adds an account under a user name that is already taken, so
    user names that are pairwise different stay so. *)
Theorem register_keeps_usernames_unique
  (hz : Werkzeug) (rw : RegisterWorld) (users : list user_doc)
  (method : http_method) (form : Form) :
  NoDup (map u_username users) ->
  NoDup (map u_username (snd (register hz rw users method form)))
  /\ (snd (register hz rw users method form) = users
      \/ exists u, snd (register hz rw users method form) = users ++ [u]
                   /\ form_username form = Some (u_username u)
                   /\ ~ In (u_username u) (map u_username users)).
Proof.
  intros Hnd. unfold register.
  destruct method; [split; auto|].
  destruct (form_username form) as [name|]; [|split; auto].
  destruct (form_password form) as [password|]; [|split; auto].
  destruct (find_one users name) eqn:Hf; [split; auto|].
  destruct (insert_user_outcome rw) as [new_id|e]; [|split; auto].
  apply find_one_none in Hf. simpl. split.
  - rewrite map_app. simpl.
    apply NoDup_app; [exact Hnd | repeat constructor; simpl; tauto|].
    intros a Ha [<-|[]]. exact (Hf Ha).
  - right. eexists. split; [reflexivity|]. simpl. auto.
Qed.

Lemma register_keeps_usernames_unique_witness :
  snd (register Sample.hz Sample.rw [Sample.ann] POST (Sample.form "ann" "x"))
  = [Sample.ann]
  /\ NoDup (map u_username
              (snd (register Sample.hz Sample.rw [Sample.ann] POST
                      (Sample.form "bob" "x")))).
Proof.
  split; [reflexivity|].
  apply (register_keeps_usernames_unique Sample.hz Sample.rw [Sample.ann]
           POST (Sample.form "bob" "x")).
  repeat constructor. simpl. tauto.
Defined.

(** X17: an account that has just been registered can log in: when the
    user name is free, the store accepts the new document, and the hash
    library accepts the password against the hash it made of it, then
    registration redirects to the login page and a login with the same
    name and password opens a session for the new account. *)
Theorem register_then_login
  (hz : Werkzeug) (rw : RegisterWorld) (users : list user_doc)
  (s : Session) (name password : string) (new_id : oid)
  (args_message : option string) :
  find_one users name = None ->
  insert_user_outcome rw = Ok new_id ->
  check_password_hash hz (generate_password_hash hz password (salt rw))
    password = true ->
  let form := {| form_username := Some name;
                 form_password := Some password |} in
  fst (register hz rw users POST form)
  = redirect "login" (Some "Account created successfully! Please log in.")
  /\ login hz (snd (register hz rw users POST form)) s POST form args_message
     = (redirect "home" None,
        {| logged_in := true; user_id := Some new_id;
           username := Some name |}).
Proof.
  intros Hf Hi Hc form. unfold register. simpl. rewrite Hf, Hi. simpl.
  split; [reflexivity|].
  unfold login. simpl.
  rewrite (find_one_snoc users name
             {| u_id := new_id;
                u_username := name;
                u_password_hash :=
                  generate_password_hash hz password (salt rw);
                u_created_at := utcnow_register rw |} Hf eq_refl).
  simpl. rewrite Hc. reflexivity.
Qed.

Lemma register_then_login_witness :
  login Sample.hz
    (snd (register Sample.hz Sample.rw [Sample.ann] POST
            (Sample.form "bob" "secret")))
    Sample.anonymous POST (Sample.form "bob" "secret") None
  = (redirect "home" None,
     {| logged_in := true; user_id := Some "u9"; username := Some "bob" |}).
Proof.
  exact (proj2 (register_then_login Sample.hz Sample.rw [Sample.ann]
                  Sample.anonymous "bob" "secret" "u9" None
                  eq_refl eq_refl eq_refl)).
Defined.

(** The two outcomes of [login]. *)
Lemma login_cases
  (hz : Werkzeug) (users : list user_doc) (s : Session)
  (method : http_method) (form : Form) (args_message : option string) :
  let r := login hz users s method form args_message in
  (snd r = s /\ fst r <> redirect "home" None)
  \/ (exists name password user,
        method = POST
        /\ form_username form = Some name
        /\ form_password form = Some password
        /\ In user users
        /\ u_username user = name
        /\ check_password_hash hz (u_password_hash user) password = true
        /\ r = (redirect "home" None,
                {| logged_in := true; user_id := Some (u_id user);
                   username := Some name |})).
Proof.
  cbv zeta. unfold login.
  destruct method; [left; split; [reflexivity|discriminate]|].
  destruct (form_username form) as [name|];
    [|left; split; [reflexivity|discriminate]].
  destruct (form_password form) as [password|];
    [|left; split; [reflexivity|discriminate]].
  destruct (find_one users name) as [user|] eqn:Hf;
    [|left; split; [reflexivity|discriminate]].
  destruct (check_password_hash hz (u_password_hash user) password) eqn:Hc;
    [|left; split; [reflexivity|discriminate]].
  right. exists name, password, user.
  destruct (find_one_some _ _ _ Hf) as [Hin Hn].
  repeat split; auto.
Qed.

(** X18: login opens a session only for an account whose stored hash the
    hash library accepts for the password that was sent: in every other
    case (a GET, a missing form field, an unknown name, a refused
    password) the session is left exactly as it was and the answer is not
    the redirect to the home page. *)
Theorem login_needs_accepted_password
  (hz : Werkzeug) (users : list user_doc) (s : Session)
  (method : http_method) (form : Form) (args_message : option string) :
  let r := login hz users s method form args_message in
  (snd r = s /\ fst r <> redirect "home" None)
  \/ (exists name password user,
        method = POST
        /\ form_username form = Some name
        /\ form_password form = Some password
        /\ In user users
        /\ u_username user = name
        /\ check_password_hash hz (u_password_hash user) password = true
        /\ r = (redirect "home" None,
                {| logged_in := true; user_id := Some (u_id user);
                   username := Some name |})).
Proof.
  exact (login_cases hz users s method form args_message).
Qed.

(** X19: after logout the session passes none of the checks: the
    analysis route and the history route answer 401 and leave the stores
    as they were, the home page redirects to the login page, and a second
    logout changes nothing. *)
Theorem logout_closes_session
  (libs : Libs) (w : World) (st : Store) (s : Session)
  (files_file : option FileStorage) :
  let s' := snd (logout s) in
  fst (logout s) = redirect "login" None
  /\ analyze libs w st s' files_file
     = (Response 401 (error_dict "Unauthorized"), st)
  /\ user_history libs st s' = Response 401 (error_dict "Unauthorized")
  /\ home s' = redirect "login" None
  /\ snd (logout s') = s'.
Proof.
  cbv zeta. repeat split; reflexivity.
Qed.

(** X20: a session that login has just opened passes the checks of the
    other routes: the home page is shown, the analysis route gets past
    its session check (without a file it answers 400, not 401), and the
    history route answers 200 with the entries of the documents stored
    under the account's id. *)
Theorem login_opens_session
  (hz : Werkzeug) (users : list user_doc) (s : Session) (form : Form)
  (args_message : option string) (libs : Libs) (w : World) (st : Store)
  (o : oid) (uid : string) :
  fst (login hz users s POST form args_message) = redirect "home" None ->
  user_id (snd (login hz users s POST form args_message)) = Some uid ->
  ObjectId libs uid = Ok o ->
  let s' := snd (login hz users s POST form args_message) in
  (exists user, In user users /\ u_id user = uid
                /\ form_username form = Some (u_username user))
  /\ home s' = render_template_string main_app_html None None
  /\ analyze libs w st s' None
     = (Response 400 (error_dict "No file found in request"), st)
  /\ user_history libs st s'
     = Response 200
         (JObj [("history",
                 JArr (map (history_entry libs) (cursor o st)))]).
Proof.
  intros Hr Hu Ho s'.
  destruct (login_cases hz users s POST form args_message)
    as [[Hs Hn]|(name & password & user & _ & Hfn & _ & Hin & Hun & _ & Hl)].
  - contradiction.
  - subst s'. rewrite Hl in *. simpl in *. injection Hu as <-.
    split; [exists user; subst name; auto|].
    split; [reflexivity|]. split; [reflexivity|].
    unfold user_history. simpl. rewrite Ho. reflexivity.
Qed.

Lemma login_opens_session_witness :
  let s' := snd (login Sample.hz [Sample.ann] Sample.anonymous POST
                   (Sample.form "ann" "pw") None) in
  home s' = render_template_string main_app_html None None
  /\ user_history Demo.libs Demo.store3 s'
     = Response 200
         (JObj [("history",
                 JArr (map (history_entry Demo.libs)
                         [Demo.doc_at "u1" 8%Z; Demo.doc_at "u1" 5%Z]))]).
Proof.
  destruct (login_opens_session Sample.hz [Sample.ann] Sample.anonymous
              (Sample.form "ann" "pw") None Demo.libs (Demo.world "full")
              Demo.store3 "u1" "u1" eq_refl eq_refl eq_refl)
    as (_ & H1 & _ & H2).
  split; [exact H1 | exact H2].
Defined.

(* ================================================================= *)
(** ** Further properties of the evaluator call and the response *)

(** X21: every upload that the first step accepts is sent to the model:
    with a client configured, the request is the prompt followed by
    exactly one part (the extracted text, or the image with its resolved
    type), the "no content" answer cannot occur, and what the route goes
    on with is the parsed answer of that one call, or the error built
    from its exception. *)
Theorem accepted_upload_is_sent_once
  (libs : Libs) (w : World) (filename content_type : string) (raw : bytes)
  (p : Payload) (c : GeminiClient) :
  classify libs filename content_type raw = Ok p ->
  client w = Some c ->
  exists content,
    build_contents (Some (text_or_blank p)) (image_bytes p) (image_mime p)
    = [Text prompt; content]
    /\ (is_image filename content_type = true
        /\ content = ImagePart raw
                       (if startswith content_type "image/"
                        then content_type else "image/jpeg")
        \/ is_image filename content_type = false
           /\ extract_text_from_file_bytes libs filename raw
              = match content with
                | Text t => Ok t
                | ImagePart _ _ => Raise EmptyContent
                end
           /\ exists t, content = Text t)
    /\ evaluate_payload libs w p
       = match invoke libs c [Text prompt; content] with
         | Ok data => data
         | Raise e => error_dict (InvocationFailed_message (exn_str e))
         end.
Proof.
  intros Hc Hw.
  pose proof (classify_has_content _ _ _ _ _ Hc) as Hn.
  assert (He : forall content,
             build_contents (Some (text_or_blank p)) (image_bytes p)
               (image_mime p) = [Text prompt; content] ->
             evaluate_payload libs w p
             = match invoke libs c [Text prompt; content] with
               | Ok data => data
               | Raise e => error_dict (InvocationFailed_message (exn_str e))
               end).
  { intros content Hb. unfold evaluate_payload.
    rewrite Hw, (evaluate_with_content _ _ _ _ _ Hn), Hb. reflexivity. }
  unfold classify in Hc.
  destruct (is_image filename content_type).
  - injection Hc as <-.
    pose proof (resolved_mime_is_kept content_type) as Hm.
    eexists. split; [|split; [left; split; reflexivity|]].
    + unfold build_contents, text_or_blank. simpl. rewrite Hm. reflexivity.
    + apply He. unfold build_contents, text_or_blank. simpl.
      rewrite Hm. reflexivity.
  - destruct (extract_text_from_file_bytes libs filename raw) as [t|e] eqn:E;
      simpl in Hc; [|discriminate].
    injection Hc as <-.
    unfold extract_text_from_file_bytes in E.
    destruct (read_text libs filename raw) as [t0|e]; unfold bind in E;
      [|discriminate].
    destruct (limit_text_not_blank _ _ E) as [H1 H2].
    assert (Hb : build_contents
                   (Some (text_or_blank
                            {| text_content := Some t; image_bytes := None;
                               image_mime := None |})) None None
                 = [Text prompt; Text t]).
    { unfold build_contents, text_or_blank. simpl.
      rewrite or_else_empty, H1, H2. reflexivity. }
    exists (Text t). split; [exact Hb|]. split.
    + right. split; [reflexivity|]. split; [reflexivity|]. eauto.
    + apply He. exact Hb.
Qed.

Lemma accepted_upload_is_sent_once_witness :
  evaluate_payload Demo.libs (Demo.world "full")
    {| text_content := Some "Hello"; image_bytes := None;
       image_mime := None |}
  = JObj Demo.full_answer.
Proof.
  destruct (accepted_upload_is_sent_once Demo.libs (Demo.world "full")
              "b.txt" "text/plain" Demo.hello
              {| text_content := Some "Hello"; image_bytes := None;
                 image_mime := None |}
              (Demo.client_answering "full") eq_refl eq_refl)
    as (content & _ & _ & H).
  rewrite H. reflexivity.
Defined.

(** X22: the dictionary of a success response has exactly the eight
    required fields of the schema as its keys, each once, whatever else
    the evaluator's answer holds; a required field that the answer has is
    returned with the answer's value, and one that it lacks is returned
    as [null] when it is a score and as the "unavailable" text otherwise.
    Nothing is said about the order in which the keys are written. *)
Theorem success_body_follows_schema (d : dict) :
  exists items,
    success_body d = JObj items
    /\ NoDup (map fst items)
    /\ (forall key,
          has_key items key = true <-> In key (required EVALUATION_SCHEMA))
    /\ (forall key v,
          In key (required EVALUATION_SCHEMA) ->
          dict_get d key = Some v ->
          dict_get items key = Some v)
    /\ (forall key,
          In key (required EVALUATION_SCHEMA) ->
          dict_get d key = None ->
          dict_get items key
          = Some (if endswith key "_score" then JNull
                  else JStr "AI analysis unavailable.")).
Proof.
  eexists. split; [reflexivity|]. split; [|split; [|split]].
  - simpl.
    repeat (constructor;
            [simpl; intros H;
             repeat (destruct H as [H|H]; [discriminate H|]); exact H|]).
    constructor.
  - intros key. split.
    + intros H. exact (has_key_in _ _ H).
    + intros Hk. simpl in Hk.
      repeat (destruct Hk as [<-|Hk]; [reflexivity|]). contradiction.
  - intros key v Hk Hd. simpl in Hk.
    repeat (destruct Hk as [<-|Hk];
            [unfold get; simpl; rewrite Hd; reflexivity|]).
    contradiction.
  - intros key Hk Hd. simpl in Hk.
    repeat (destruct Hk as [<-|Hk];
            [unfold get; simpl; rewrite Hd; reflexivity|]).
    contradiction.
Qed.
